(** * Infinitus front-end: a shallow embedding of the React components

    The repository is a scaffold: a class-name helper ([cn]), a handful of
    presentational components (header, sidebar, dashboard page, layout
    shell, root route) and the Vite starter counter ([App]).  Components
    are embedded as functions from their props to the element tree they
    return.  Calls into imported packages ([clsx], [twMerge],
    [useSidebar]) are calls into code that lives outside the repository:
    they are taken as parameters (record [Imports]) and, like every
    JavaScript call, may throw, so they return an [Outcome]. *)

From Stdlib Require Import ZArith Ascii String List Lia.
From stdpp Require Import base option strings list gmap pretty.

Set Warnings "-register-all".
Open Scope Z_scope.
Open Scope string_scope.

(** ** Results of JavaScript calls *)

Inductive Outcome (A : Type) : Type :=
  | Returns (value : A)
  | Throws (error : string).
Arguments Returns {A} value.
Arguments Throws {A} error.

#[export] Instance Outcome_ret : MRet Outcome := fun A x => Returns x.
#[export] Instance Outcome_bind : MBind Outcome := fun A B f m =>
  match m with
  | Returns x => f x
  | Throws e => Throws e
  end.
#[export] Instance Outcome_fmap : FMap Outcome := fun A B f m =>
  match m with
  | Returns x => Returns (f x)
  | Throws e => Throws e
  end.

(** ** Values *)

(** [ClassValue] as declared by the clsx package: a string, a number, a
    bigint, a boolean, [null], [undefined], an array of class values or a
    dictionary from class names to values (only the truthiness of a
    dictionary value matters, so it is kept as a [bool]). *)
Inductive ClassValue : Type :=
  | CVString (s : string)
  | CVNumber (n : Z)
  | CVBigInt (n : Z)
  | CVBoolean (b : bool)
  | CVNull
  | CVUndefined
  | CVArray (items : list ClassValue)
  | CVDictionary (entries : list (string * bool)).

(** JavaScript truthiness of a class value. *)
Definition truthy (v : ClassValue) : bool :=
  match v with
  | CVString s => negb (String.eqb s "")
  | CVNumber n | CVBigInt n => negb (Z.eqb n 0)
  | CVBoolean b => b
  | CVNull | CVUndefined => false
  | CVArray _ | CVDictionary _ => true
  end.

(** Attribute values found on elements: strings, booleans, numbers, a
    style object, or an event handler.  The only handler in the
    repository is the counter's [() => setCount(updater)]. *)
Inductive EventHandler : Type :=
  | SetState (updater : Z -> Z).

Inductive PropValue : Type :=
  | PStr (s : string)
  | PBool (b : bool)
  | PNum (n : Z)
  | PStyle (declarations : gmap string string)
  | PHandler (h : EventHandler).

Definition prop_truthy (v : option PropValue) : bool :=
  match v with
  | None => false
  | Some (PStr s) => negb (String.eqb s "")
  | Some (PBool b) => b
  | Some (PNum n) => negb (Z.eqb n 0)
  | Some (PStyle _) | Some (PHandler _) => true
  end.

(** Truthiness of an optional string prop ([src?: string]): [undefined]
    and the empty string are falsy. *)
Definition string_truthy (v : option string) : bool :=
  match v with
  | None => false
  | Some s => negb (String.eqb s "")
  end.

(** A [className] prop handed to [cn]: absent is [undefined].  The prop
    is typed [string | undefined]; the other shapes are mapped to the
    class value with the same truthiness and contribution (a function is
    truthy and names no class, like [true]). *)
Definition class_value (v : option PropValue) : ClassValue :=
  match v with
  | None => CVUndefined
  | Some (PStr s) => CVString s
  | Some (PBool b) => CVBoolean b
  | Some (PNum n) => CVNumber n
  | Some (PStyle d) => CVDictionary ((λ kv, (kv.1, true)) <$> map_to_list d)
  | Some (PHandler _) => CVBoolean true
  end.

(** ** Element trees *)

(** The [type] of a React element: a host tag, or a component bound by an
    import ([Component "proqio-ui" "Sidebar"]) . *)
Inductive ElementType : Type :=
  | Tag (name : string)
  | Component (module name : string).

Inductive Element : Type :=
  | Text (s : string)
  | Number (n : Z)
  | Elem (type : ElementType) (props : gmap string PropValue)
         (children : list Element).

(** JSX attributes are evaluated left to right into one props object; a
    later attribute or spread overrides an earlier key. *)
Inductive JsxAttr : Type :=
  | Attr (key : string) (value : PropValue)
  | Spread (object : gmap string PropValue).

Definition jsx_props (attributes : list JsxAttr) : gmap string PropValue :=
  foldl (λ acc a,
           match a with
           | Attr k v => <[k := v]> acc
           | Spread m => m ∪ acc
           end) ∅ attributes.

Definition jsx (type : ElementType) (attributes : list JsxAttr)
    (children : list Element) : Element :=
  Elem type (jsx_props attributes) children.

(** Props received by a component that accepts the attributes of a host
    element ([React.ComponentPropsWithRef<...>]): the attribute object and
    the [children]. *)
Record Props : Type := {
  attrs : gmap string PropValue;
  children : option (list Element)
}.

(** [{children}] in JSX: [undefined] renders nothing. *)
Definition child_nodes (c : option (list Element)) : list Element :=
  default [] c.

(** Object rest in a destructuring pattern: the object without the keys
    that were bound by name. *)
Definition rest_props (bound : list string) (p : gmap string PropValue)
    : gmap string PropValue :=
  foldr delete p bound.

(** ** Imported packages *)

(** What the components import from outside the repository.  [clsx] and
    [twMerge] are the two functions behind [cn]; [useSidebar] is the
    proqio-ui hook, which reads the sidebar context of the render in
    progress ([RenderContext] stands for that ambient React state) and
    whose result carries a [state] field. *)
Record Imports : Type := {
  clsx : list ClassValue -> Outcome string;
  twMerge : string -> Outcome string;
  RenderContext : Type;
  SidebarContext : Type;
  useSidebar : RenderContext -> Outcome SidebarContext;
  state : SidebarContext -> string
}.

(** ** src/utils/cn.ts *)

Definition cn (L : Imports) (values : list ClassValue) : Outcome string :=
  v ← clsx L values; twMerge L v.

(** ** @/utils/get-initials *)

(** Modelled from the spec: the scan behind [getInitials], whose file is
    missing from the sources; it keeps the first character of every
    space-separated word. *)
Fixpoint initials_from (word_start : bool) (s : string) : string :=
  match s with
  | EmptyString => EmptyString
  | String c rest =>
      if Ascii.eqb c " "%char then initials_from true rest
      else if word_start then String c (initials_from false rest)
      else initials_from false rest
  end.

(** Modelled from the spec: [getInitials] ('@/utils/get-initials') is
    imported by the header but its file is missing from the sources.  The
    spec describes it only as a trivial initials computation on a name:
    the first character of each space-separated word of the name. *)
Definition getInitials (name : string) : string :=
  initials_from true name.

(** ** src/components/layout/app-header.tsx *)

Section AppHeader.
Context (L : Imports).

Definition Header (p : Props) : Outcome Element :=
  let className := attrs p !! "className" in
  let props := rest_props ["className"] (attrs p) in
  c ← cn L [CVString "flex h-14 items-center justify-between border-b border-slate-200 bg-white px-6 dark:border-slate-800 dark:bg-slate-950";
            class_value className];
  mret (jsx (Tag "header") [Attr "className" (PStr c); Spread props]
            (child_nodes (children p))).

Definition HeaderSection (p : Props) : Outcome Element :=
  let className := attrs p !! "className" in
  let props := rest_props ["className"] (attrs p) in
  c ← cn L [CVString "flex items-center gap-3"; class_value className];
  mret (jsx (Tag "div") [Attr "className" (PStr c); Spread props]
            (child_nodes (children p))).

(** [children = 'Infinitus']: the default applies when [children] is
    [undefined]. *)
Definition HeaderBrand (p : Props) : Outcome Element :=
  let children := default [Text "Infinitus"] (children p) in
  let className := attrs p !! "className" in
  let props := rest_props ["className"] (attrs p) in
  c ← cn L [CVString "text-base font-semibold text-slate-900 dark:text-white";
            class_value className];
  mret (jsx (Tag "span") [Attr "className" (PStr c); Spread props] children).

(** [children] is not bound by the pattern, so it stays in [...props]
    and reaches the [div] through the spread. *)
Definition HeaderDivider (p : Props) : Outcome Element :=
  let className := attrs p !! "className" in
  let props := rest_props ["className"] (attrs p) in
  c ← cn L [CVString "h-5 w-px bg-slate-200 dark:bg-slate-700";
            class_value className];
  mret (jsx (Tag "div")
            [Attr "className" (PStr c); Attr "aria-hidden" (PStr "true");
             Spread props]
            (child_nodes (children p))).

Definition HeaderCompanyLogo (p : Props) : Outcome Element :=
  let src := attrs p !! "src" in
  let alt := default (PStr "Company logo") (attrs p !! "alt") in
  let className := attrs p !! "className" in
  let props := rest_props ["src"; "alt"; "className"] (attrs p) in
  if prop_truthy src then
    c ← cn L [CVString "h-7 w-auto rounded object-contain";
              class_value className];
    mret (jsx (Tag "img")
              [Attr "src" (default (PStr "") src); Attr "alt" alt;
               Attr "className" (PStr c); Spread props]
              (child_nodes (children p)))
  else
    c ← cn L [CVString "flex h-7 w-7 items-center justify-center rounded bg-slate-100 dark:bg-slate-800";
              class_value className];
    mret (jsx (Tag "div") [Attr "className" (PStr c)]
           [jsx (Tag "svg")
              [Attr "xmlns" (PStr "http://www.w3.org/2000/svg");
               Attr "viewBox" (PStr "0 0 24 24");
               Attr "fill" (PStr "none");
               Attr "stroke" (PStr "currentColor");
               Attr "strokeWidth" (PStr "1.5");
               Attr "strokeLinecap" (PStr "round");
               Attr "strokeLinejoin" (PStr "round");
               Attr "className" (PStr "h-4 w-4 text-slate-500 dark:text-slate-400");
               Attr "aria-label" alt]
              [jsx (Tag "path")
                 [Attr "d" (PStr "M3 21h18M3 7l9-4 9 4M4 7v14M20 7v14M9 21V9h6v12")]
                 []]]).

Record HeaderUserAvatarProps : Type := {
  src : option string;
  name : option string;
  className : option string
}.

Definition HeaderUserAvatar (p : HeaderUserAvatarProps) : Outcome Element :=
  let src := src p in
  let name := default "User" (name p) in
  let className := className p in
  let initials := getInitials name in
  c ← cn L [CVString "rounded-full outline-none ring-offset-2 focus-visible:ring-2 focus-visible:ring-slate-400";
            from_option CVString CVUndefined className];
  mret (jsx (Component "proqio-ui" "DropdownMenu") []
    [jsx (Component "proqio-ui" "DropdownMenuTrigger") [Attr "asChild" (PBool true)]
       [jsx (Tag "button")
          [Attr "type" (PStr "button");
           Attr "className" (PStr c);
           Attr "aria-label" (PStr ("User menu for " +:+ name))]
          [if string_truthy src then
             jsx (Tag "img")
               [Attr "src" (PStr (default "" src)); Attr "alt" (PStr name);
                Attr "className" (PStr "h-8 w-8 rounded-full object-cover")]
               []
           else
             jsx (Tag "div")
               [Attr "className" (PStr "flex h-8 w-8 items-center justify-center rounded-full bg-indigo-600 text-white")]
               [jsx (Tag "span") [Attr "className" (PStr "text-xs font-semibold")]
                  [Text initials]]]];
     jsx (Component "proqio-ui" "DropdownMenuContent") [Attr "align" (PStr "end")]
       [jsx (Component "proqio-ui" "DropdownMenuItem") [] [Text "Profile"];
        jsx (Component "proqio-ui" "DropdownMenuItem") [] [Text "Settings"];
        jsx (Component "proqio-ui" "DropdownMenuItem") [] [Text "Sign out"]]]).

End AppHeader.

(** ** src/components/layout/app-sidebar.tsx (Heroicons revision) *)

(** A [key] given to a list entry is kept as the pseudo-attribute
    ["key"]. *)
Module AppSidebarHeroicons.

Record NavItem : Type := {
  label : string;
  to : string;
  Icon : ElementType
}.

Definition navItems : list NavItem :=
  [ {| label := "Home"; to := "/";
       Icon := Component "@heroicons/react/24/outline" "HomeIcon" |} ].

(** The callback passed to [navItems.map]. *)
Definition navEntry (item : NavItem) : Element :=
  let '{| label := label; to := to; Icon := Icon |} := item in
  jsx (Component "proqio-ui" "SidebarMenuItem") [Attr "key" (PStr to)]
    [jsx (Component "proqio-ui" "SidebarMenuButton")
       [Attr "asChild" (PBool true); Attr "tooltip" (PStr label);
        Attr "className" (PStr "group-data-[collapsible=icon]:mx-auto")]
       [jsx (Component "@tanstack/react-router" "Link") [Attr "to" (PStr to)]
          [jsx Icon [Attr "className" (PStr "size-4")] [];
           jsx (Tag "span") [] [Text label]]]].

Definition AppSidebar (L : Imports) (ctx : RenderContext L) : Outcome Element :=
  sidebar ← useSidebar L ctx;
  let state := state L sidebar in
  let isExpanded := String.eqb state "expanded" in
  c ← cn L [CVString "flex";
            CVString (if isExpanded then "justify-end" else "justify-center")];
  mret (jsx (Component "proqio-ui" "Sidebar")
          [Attr "collapsible" (PStr "icon");
           Attr "className" (PStr "absolute h-(--content-height) max-h-(--content-height)")]
          [jsx (Component "proqio-ui" "SidebarHeader") [Attr "className" (PStr c)]
             [jsx (Component "proqio-ui" "SidebarTrigger") []
                [if isExpanded then
                   jsx (Component "@heroicons/react/24/outline" "ChevronDoubleLeftIcon")
                     [Attr "className" (PStr "size-4")] []
                 else
                   jsx (Component "@heroicons/react/24/outline" "ChevronDoubleRightIcon")
                     [Attr "className" (PStr "size-4")] []]];
           jsx (Component "proqio-ui" "SidebarContent") []
             [jsx (Component "proqio-ui" "SidebarMenu") [] (navEntry <$> navItems)];
           jsx (Component "proqio-ui" "SidebarRail") [] []]).

End AppSidebarHeroicons.

(** ** src/components/layout/app-sidebar.tsx (lucide revision) *)

Module AppSidebarLucide.

Record NavItem : Type := {
  label : string;
  to : string;
  Icon : ElementType
}.

Definition navItems : list NavItem :=
  [ {| label := "Home"; to := "/"; Icon := Component "lucide-react" "House" |} ].

(** The callback passed to [navItems.map]. *)
Definition navEntry (item : NavItem) : Element :=
  let '{| label := label; to := to; Icon := Icon |} := item in
  jsx (Component "proqio-ui" "SidebarMenuItem") [Attr "key" (PStr to)]
    [jsx (Component "proqio-ui" "SidebarMenuButton")
       [Attr "asChild" (PBool true); Attr "tooltip" (PStr label);
        Attr "className" (PStr "group-data-[collapsible=icon]:mx-auto")]
       [jsx (Component "@tanstack/react-router" "Link") [Attr "to" (PStr to)]
          [jsx Icon [Attr "className" (PStr "size-4")] [];
           jsx (Tag "span") [] [Text label]]]].

Definition AppSidebar (L : Imports) (ctx : RenderContext L) : Outcome Element :=
  sidebar ← useSidebar L ctx;
  let state := state L sidebar in
  let isExpanded := String.eqb state "expanded" in
  c ← cn L [CVString "flex";
            CVString (if isExpanded then "justify-end" else "justify-center")];
  mret (jsx (Component "proqio-ui" "Sidebar")
          [Attr "collapsible" (PStr "icon");
           Attr "className" (PStr "absolute h-(--content-height) max-h-(--content-height)")]
          [jsx (Component "proqio-ui" "SidebarHeader") [Attr "className" (PStr c)]
             [jsx (Component "proqio-ui" "SidebarTrigger") []
                [if isExpanded then
                   jsx (Component "lucide-react" "ChevronsLeft")
                     [Attr "className" (PStr "size-4")] []
                 else
                   jsx (Component "lucide-react" "ChevronsRight")
                     [Attr "className" (PStr "size-4")] []]];
           jsx (Component "proqio-ui" "SidebarContent") []
             [jsx (Component "proqio-ui" "SidebarMenu") [] (navEntry <$> navItems)];
           jsx (Component "proqio-ui" "SidebarRail") [] []]).

End AppSidebarLucide.

(** ** src/pages/dashboard-page.tsx *)

Module Stat.
Record t : Type := {
  label : string;
  value : string;
  description : string
}.
End Stat.

Definition DashboardPage : Element :=
  let stats : list Stat.t :=
    [ {| Stat.label := "Total Scans"; Stat.value := "128";
         Stat.description := "All-time assessments" |};
      {| Stat.label := "Critical Findings"; Stat.value := "14";
         Stat.description := "Requires immediate action" |};
      {| Stat.label := "Providers Connected"; Stat.value := "5";
         Stat.description := "AWS, Azure, GCP, K8s, GitHub" |};
      {| Stat.label := "Last Scan"; Stat.value := "2h ago";
         Stat.description := "Most recent assessment" |} ] in
  jsx (Tag "div") [Attr "className" (PStr "flex flex-col gap-6 p-6")]
    [jsx (Tag "div") []
       [jsx (Tag "h1") [Attr "className" (PStr "text-2xl font-bold")] [Text "Dashboard"];
        jsx (Tag "p") [Attr "className" (PStr "text-muted-foreground text-sm")]
          [Text "Overview of your cloud security posture"]];
     jsx (Tag "div")
       [Attr "className" (PStr "grid grid-cols-1 gap-4 sm:grid-cols-2 lg:grid-cols-4")]
       ((λ s : Stat.t,
           jsx (Tag "div")
             [Attr "key" (PStr (Stat.label s));
              Attr "className" (PStr "bg-card text-card-foreground rounded-xl border p-5 shadow-sm")]
             [jsx (Tag "p") [Attr "className" (PStr "text-muted-foreground text-sm font-medium")]
                [Text (Stat.label s)];
              jsx (Tag "p") [Attr "className" (PStr "mt-1 text-3xl font-bold")]
                [Text (Stat.value s)];
              jsx (Tag "p") [Attr "className" (PStr "text-muted-foreground mt-1 text-xs")]
                [Text (Stat.description s)]]) <$> stats);
     jsx (Tag "div")
       [Attr "className" (PStr "bg-card text-card-foreground rounded-xl border p-5 shadow-sm")]
       [jsx (Tag "h2") [Attr "className" (PStr "mb-4 text-base font-semibold")]
          [Text "Recent Findings"];
        jsx (Tag "p") [Attr "className" (PStr "text-muted-foreground text-sm")]
          [Text "No recent findings to display."]]].

(** ** The home page *)

Definition HomePage : Element :=
  jsx (Tag "main")
    [Attr "className" (PStr "flex h-full flex-col items-center justify-center gap-4")]
    [jsx (Tag "h1") [Attr "className" (PStr "text-4xl font-bold")] [Text "Infinitus"];
     jsx (Tag "p") [Attr "className" (PStr "text-muted-foreground max-w-md text-center text-lg")]
       [Text "Open-source cloud security assessment tool for AWS, Azure, GCP, Kubernetes, GitHub, and more."];
     jsx (Component "proqio-ui" "Button")
       [Attr "variant" (PStr "primary"); Attr "asChild" (PBool true)]
       [jsx (Tag "a")
          [Attr "href" (PStr "https://proqio.com"); Attr "target" (PStr "_blank");
           Attr "rel" (PStr "noopener noreferrer")]
          [Text "Visit Proqio"]]].

(** ** src/components/layout/app-layout.tsx *)

Definition AppLayout : Element :=
  jsx (Tag "div") [Attr "className" (PStr "flex h-screen flex-col")]
    [jsx (Component "@/components/layout/app-header" "Header") []
       [jsx (Component "@/components/layout/app-header" "HeaderSection") []
          [jsx (Component "@/components/layout/app-header" "HeaderBrand") [] []];
        jsx (Component "@/components/layout/app-header" "HeaderSection") []
          [jsx (Component "@/components/layout/app-header" "HeaderUserAvatar") [] []]];
     jsx (Component "proqio-ui" "SidebarProvider")
       [Attr "className" (PStr "relative min-h-0 flex-1");
        Attr "style" (PStyle {[ "--content-height" := "100%" ]})]
       [jsx (Component "@/components/layout/app-sidebar" "AppSidebar") [] [];
        jsx (Tag "main") [Attr "className" (PStr "flex-1 overflow-auto")]
          [jsx (Component "@tanstack/react-router" "Outlet") [] []]]].

(** ** The root route *)

Definition RootLayout : Element :=
  jsx (Component "react" "Suspense") []
    [jsx (Component "@/components/layout/app-layout" "AppLayout") [] []].

(** ** src/App.tsx *)

(** [count + 1] on JavaScript numbers.  A number is an IEEE-754 double;
    on integers below 2^1024 in magnitude the sum is the exact sum rounded
    to 53 significant bits, ties to the even significand. *)
Definition ulp (z : Z) : Z :=
  2 ^ Z.max 0 (Z.log2 (Z.abs z) - 52).

Definition round_to_double (z : Z) : Z :=
  let u := ulp z in
  let q := z / u in
  let r := z mod u in
  if (2 * r <? u)%Z then q * u
  else if (u <? 2 * r)%Z then (q + 1) * u
  else if Z.even q then q * u
  else (q + 1) * u.

Definition number_add (a b : Z) : Z :=
  round_to_double (a + b).

(** The logos are imported assets ([viteLogo] from "/vite.svg",
    [reactLogo] from "./assets/react.svg"); each stands for its URL.

    React's [useState]: the cell of the mounted component holds the
    current value; before the first render it is empty and the initial
    value is used.  [setCount(updater)] stores [updater] applied to the
    current value. *)
Definition useState (initial : Z) (cell : option Z) : Z :=
  default initial cell.

Definition App (cell : option Z) : Element :=
  let count := useState 0 cell in
  jsx (Tag "main")
    [Attr "className" (PStr "min-h-screen flex flex-col items-center justify-center gap-8 px-4")]
    [jsx (Tag "header") [Attr "className" (PStr "flex items-center gap-6")]
       [jsx (Tag "a")
          [Attr "href" (PStr "https://vite.dev"); Attr "target" (PStr "_blank");
           Attr "rel" (PStr "noreferrer")]
          [jsx (Tag "img")
             [Attr "src" (PStr "/vite.svg"); Attr "className" (PStr "h-16 w-16");
              Attr "alt" (PStr "Vite logo")] []];
        jsx (Tag "a")
          [Attr "href" (PStr "https://react.dev"); Attr "target" (PStr "_blank");
           Attr "rel" (PStr "noreferrer")]
          [jsx (Tag "img")
             [Attr "src" (PStr "./assets/react.svg"); Attr "className" (PStr "h-16 w-16");
              Attr "alt" (PStr "React logo")] []]];
     jsx (Tag "h1") [Attr "className" (PStr "text-4xl font-bold")] [Text "Vite + React"];
     jsx (Tag "section")
       [Attr "className" (PStr "flex flex-col items-center gap-4 rounded-xl border border-slate-700 bg-slate-800 px-10 py-8")]
       [jsx (Component "proqio-ui" "Button")
          [Attr "variant" (PStr "primary");
           Attr "onClick" (PHandler (SetState (λ count, number_add count 1)))]
          [Text "count is "; Number count];
        jsx (Tag "p") [Attr "className" (PStr "text-sm text-slate-400")]
          [Text "Edit"; Text " ";
           jsx (Tag "code")
             [Attr "className" (PStr "rounded bg-slate-700 px-1.5 py-0.5 text-xs")]
             [Text "src/App.tsx"];
           Text " "; Text "and save to test HMR"]];
     jsx (Tag "footer") [Attr "className" (PStr "text-sm text-slate-400")]
       [Text "Click on the Vite and React logos to learn more"]].

(** ** Rendering *)

(** A function component of the repository together with the props it is
    called with. *)
Inductive ComponentCall : Type :=
  | call_Header (p : Props)
  | call_HeaderSection (p : Props)
  | call_HeaderBrand (p : Props)
  | call_HeaderDivider (p : Props)
  | call_HeaderCompanyLogo (p : Props)
  | call_HeaderUserAvatar (p : HeaderUserAvatarProps)
  | call_AppSidebar
  | call_AppSidebar_lucide
  | call_DashboardPage
  | call_HomePage
  | call_AppLayout
  | call_RootLayout
  | call_App (cell : option Z).

(** One render: React calls the function with its props; hooks read the
    render context ([useSidebar]) or the component's state cell
    ([useState]). *)
Definition render (L : Imports) (ctx : RenderContext L) (call : ComponentCall)
    : Outcome Element :=
  match call with
  | call_Header p => Header L p
  | call_HeaderSection p => HeaderSection L p
  | call_HeaderBrand p => HeaderBrand L p
  | call_HeaderDivider p => HeaderDivider L p
  | call_HeaderCompanyLogo p => HeaderCompanyLogo L p
  | call_HeaderUserAvatar p => HeaderUserAvatar L p
  | call_AppSidebar => AppSidebarHeroicons.AppSidebar L ctx
  | call_AppSidebar_lucide => AppSidebarLucide.AppSidebar L ctx
  | call_DashboardPage => Returns DashboardPage
  | call_HomePage => Returns HomePage
  | call_AppLayout => Returns AppLayout
  | call_RootLayout => Returns RootLayout
  | call_App cell => Returns (App cell)
  end.

(** The root route:
    [createRootRouteWithContext<RouterContext>()({ component: RootLayout })].
    The options object holds the component and nothing else. *)
Record RouteOptions : Type := {
  component : ComponentCall
}.

Module RootRoute.
Definition Route : RouteOptions :=
  {| component := call_RootLayout |}.
End RootRoute.

(** ** Clicking the counter *)

#[export] Instance ElementType_eq_dec : EqDecision ElementType.
Proof. solve_decision. Defined.

Definition type_of (e : Element) : option ElementType :=
  match e with
  | Elem t _ _ => Some t
  | _ => None
  end.

Definition props_of (e : Element) : gmap string PropValue :=
  match e with
  | Elem _ p _ => p
  | _ => ∅
  end.

Definition children_of (e : Element) : list Element :=
  match e with
  | Elem _ _ cs => cs
  | _ => []
  end.

Definition attr (k : string) (e : Element) : option PropValue :=
  props_of e !! k.

(** The element and everything below it, in document order. *)
Fixpoint descendants (e : Element) : list Element :=
  e :: match e with
       | Elem _ _ cs => flat_map descendants cs
       | _ => []
       end.

Definition find_all (t : ElementType) (e : Element) : list Element :=
  filter (λ d, type_of d = Some t) (descendants e).

(** A click on the button runs its [onClick] handler against the state
    cell; the next render reads the new cell. *)
Definition click (cell : option Z) : option Z :=
  match find_all (Component "proqio-ui" "Button") (App cell) with
  | [button] =>
      match attr "onClick" button with
      | Some (PHandler (SetState updater)) => Some (updater (useState 0 cell))
      | _ => cell
      end
  | _ => cell
  end.

(** The state cell after [n] clicks on the freshly mounted component. *)
Definition after_clicks (n : N) : option Z :=
  N.iter n click None.

(** The number shown on the button. *)
Definition displayed_count (tree : Element) : option Z :=
  match find_all (Component "proqio-ui" "Button") tree with
  | [button] =>
      match children_of button with
      | [Text _; Number n] => Some n
      | _ => None
      end
  | _ => None
  end.

(** ** Reading rendered trees *)

Fixpoint inner_text (e : Element) : string :=
  match e with
  | Text s => s
  | Number n => pretty n
  | Elem _ _ cs => String.concat "" (inner_text <$> cs)
  end.

(** The tree without its attributes: element types and nesting only. *)
Fixpoint skeleton (e : Element) : Element :=
  match e with
  | Elem t _ cs => Elem t ∅ (skeleton <$> cs)
  | other => other
  end.

(** The tree with every element type renamed by [f]. *)
Fixpoint map_types (f : ElementType -> ElementType) (e : Element) : Element :=
  match e with
  | Elem t p cs => Elem (f t) p (map_types f <$> cs)
  | other => other
  end.

(** The Heroicons component at an icon position and the lucide component
    the other revision puts there; every other type is left alone. *)
Definition heroicons_to_lucide (t : ElementType) : ElementType :=
  if decide (t = Component "@heroicons/react/24/outline" "ChevronDoubleLeftIcon")
  then Component "lucide-react" "ChevronsLeft"
  else if decide (t = Component "@heroicons/react/24/outline" "ChevronDoubleRightIcon")
  then Component "lucide-react" "ChevronsRight"
  else if decide (t = Component "@heroicons/react/24/outline" "HomeIcon")
  then Component "lucide-react" "House"
  else t.

Definition is_icon (t : ElementType) : bool :=
  match t with
  | Component m _ =>
      String.eqb m "@heroicons/react/24/outline" || String.eqb m "lucide-react"
  | Tag _ => false
  end.

(** The stat cards of a dashboard tree: label and value of each card of
    the grid, in order. *)
Definition stat_cards (page : Element) : list (string * string) :=
  match children_of page !! 1%nat with
  | Some grid =>
      (λ card, (from_option inner_text "" (children_of card !! 0%nat),
                from_option inner_text "" (children_of card !! 1%nat)))
        <$> children_of grid
  | None => []
  end.

(** TanStack Router renders the component of the matched child route in
    place of [<Outlet />]. *)
Fixpoint fill_outlet (page : Element) (e : Element) : Element :=
  match e with
  | Elem t p cs =>
      if decide (t = Component "@tanstack/react-router" "Outlet") then page
      else Elem t p (fill_outlet page <$> cs)
  | other => other
  end.

(** Sidebar links: destination and label of every [Link], in order. *)
Definition links (tree : Element) : list (option PropValue * string) :=
  (λ l, (attr "to" l, inner_text l))
    <$> find_all (Component "@tanstack/react-router" "Link") tree.

(** ** Reference instances of the imported packages

    Executable stand-ins for the imports, used to run the components on
    concrete inputs.  [clsx_model] follows the documented loop of the clsx
    package; [twMerge_model] resolves conflicts inside a small table of
    Tailwind class groups (the utilities below really conflict pairwise
    within a group); the sidebar context is the state string itself. *)

Definition add_class (str y : string) : string :=
  if String.eqb y "" then str
  else if String.eqb str "" then y
  else str +:+ " " +:+ y.

Fixpoint toVal (mix : ClassValue) : string :=
  match mix with
  | CVString s => s
  | CVNumber n => pretty n
  | CVArray items =>
      foldl (λ str x, if truthy x then add_class str (toVal x) else str) "" items
  | CVDictionary entries =>
      foldl (λ str (kv : string * bool), if kv.2 then add_class str kv.1 else str)
            "" entries
  | CVBigInt _ | CVBoolean _ | CVNull | CVUndefined => ""
  end.

Definition clsx_model (values : list ClassValue) : string :=
  foldl (λ str x, if truthy x then add_class str (toVal x) else str) "" values.

Fixpoint segments (s : string) : list string :=
  match s with
  | EmptyString => [EmptyString]
  | String c rest =>
      if Ascii.eqb c " "%char then EmptyString :: segments rest
      else match segments rest with
           | w :: ws => String c w :: ws
           | [] => [String c EmptyString]
           end
  end.

Definition words (s : string) : list string :=
  filter (λ w, w ≠ "") (segments s).

Definition class_groups : list (string * string) :=
  [ ("justify-start", "justify-content"); ("justify-end", "justify-content");
    ("justify-center", "justify-content"); ("justify-between", "justify-content");
    ("px-4", "padding-x"); ("px-6", "padding-x"); ("px-10", "padding-x");
    ("h-7", "height"); ("h-8", "height"); ("h-14", "height") ].

Definition group_of (class : string) : option string :=
  (list_to_map class_groups : gmap string string) !! class.

Definition conflicts_model (a b : string) : bool :=
  match group_of a, group_of b with
  | Some g, Some h => String.eqb g h
  | _, _ => false
  end.

Fixpoint resolve (classes : list string) : list string :=
  match classes with
  | [] => []
  | c :: rest =>
      if existsb (conflicts_model c) rest then resolve rest
      else c :: resolve rest
  end.

Definition twMerge_model (s : string) : string :=
  String.concat " " (resolve (words s)).

Record ReferenceContext : Type := {
  sidebar : option string;
  renders : nat
}.

Definition reference_imports : Imports :=
  {| clsx := λ values, Returns (clsx_model values);
     twMerge := λ s, Returns (twMerge_model s);
     RenderContext := ReferenceContext;
     SidebarContext := string;
     useSidebar := λ ctx,
       match sidebar ctx with
       | Some s => Returns s
       | None => Throws "useSidebar must be used within a SidebarProvider."
       end;
     state := λ s, s |}.

(** Imports whose [clsx] always throws. *)
Definition throwing_imports : Imports :=
  {| clsx := λ _, Throws "clsx failed";
     twMerge := λ s, Returns s;
     RenderContext := ReferenceContext;
     SidebarContext := string;
     useSidebar := λ ctx, Returns (default "collapsed" (sidebar ctx));
     state := λ s, s |}.

(** ** Vocabulary of the statements *)

(** What the documentation of clsx and tailwind-merge promises, for a
    given conflict relation between class names: falsy arguments are
    dropped, arrays are flattened, class names are joined by single
    spaces, and of two conflicting classes the later one remains. *)
Record LibraryContract (L : Imports) (conflicts : string -> string -> Prop)
    : Prop := {
  clsx_drops_falsy :
    ∀ values, clsx L (filter (λ v, truthy v) values) = clsx L values;
  clsx_flattens :
    ∀ items values, clsx L (CVArray items :: values) = clsx L (items ++ values);
  clsx_joins :
    ∀ names, Forall (λ s, s ≠ "") names ->
      clsx L (CVString <$> names) = Returns (String.concat " " names);
  twMerge_later_wins :
    ∀ a b, conflicts a b -> twMerge L (a +:+ " " +:+ b) = Returns b
}.

(** The error [e] was thrown by one of the imported functions. *)
Definition library_error (L : Imports) (ctx : RenderContext L) (e : string)
    : Prop :=
  (∃ values, clsx L values = Throws e)
  ∨ (∃ s, twMerge L s = Throws e)
  ∨ useSidebar L ctx = Throws e.

(** None of the imported functions throws in this render. *)
Definition libraries_return (L : Imports) (ctx : RenderContext L) : Prop :=
  (∀ values, ∃ s, clsx L values = Returns s)
  ∧ (∀ s, ∃ t, twMerge L s = Returns t)
  ∧ (∃ c, useSidebar L ctx = Returns c).

(** The components whose body calls [cn]. *)
Definition calls_cn (call : ComponentCall) : bool :=
  match call with
  | call_Header _ | call_HeaderSection _ | call_HeaderBrand _
  | call_HeaderDivider _ | call_HeaderCompanyLogo _ | call_HeaderUserAvatar _
  | call_AppSidebar | call_AppSidebar_lucide => true
  | call_DashboardPage | call_HomePage | call_AppLayout | call_RootLayout
  | call_App _ => false
  end.



(** The render produced a tree that contains an [<img>]. *)
Definition shows_image (result : Outcome Element) : Prop :=
  ∃ tree, result = Returns tree ∧ find_all (Tag "img") tree ≠ [].

(** The region of the layout that holds the routed page. *)
Definition main_region (layout : Element) : option Element :=
  provider ← children_of layout !! 1%nat; children_of provider !! 1%nat.

(** ** Event handlers and stale renders *)

(** The [onClick] handler that a rendered counter tree carries. *)
Definition onClick_of (tree : Element) : option EventHandler :=
  match find_all (Component "proqio-ui" "Button") tree with
  | [button] =>
      match attr "onClick" button with
      | Some (PHandler h) => Some h
      | _ => None
      end
  | _ => None
  end.

(** Running a handler against the current state cell. *)
Definition dispatch (h : EventHandler) (cell : option Z) : option Z :=
  match h with
  | SetState updater => Some (updater (useState 0 cell))
  end.

(** ** Rendering a tree of components *)

(** A string-typed prop read from the attributes of an element. *)
Definition string_prop (v : option PropValue) : option string :=
  match v with
  | Some (PStr s) => Some s
  | _ => None
  end.

(** The props a component receives from the element that names it: the
    attributes, and [children] when the element has any. *)
Definition element_props (e : Element) : Props :=
  {| attrs := props_of e;
     children := match children_of e with
                 | [] => None
                 | cs => Some cs
                 end |}.

(** Which revision of app-sidebar.tsx is installed. *)
Inductive SidebarRevision : Type :=
  | heroicons_revision
  | lucide_revision.

(** The imports of the repository's own modules (app-layout.tsx and the
    root route import the header components, [AppSidebar] and
    [AppLayout]): the component function an element type is bound to,
    called with the props of the element. *)
Definition resolve_import (revision : SidebarRevision) (e : Element)
    : option ComponentCall :=
  match type_of e with
  | Some (Component m n) =>
      if decide (m = "@/components/layout/app-header") then
        if decide (n = "Header") then Some (call_Header (element_props e))
        else if decide (n = "HeaderSection") then
          Some (call_HeaderSection (element_props e))
        else if decide (n = "HeaderBrand") then
          Some (call_HeaderBrand (element_props e))
        else if decide (n = "HeaderDivider") then
          Some (call_HeaderDivider (element_props e))
        else if decide (n = "HeaderCompanyLogo") then
          Some (call_HeaderCompanyLogo (element_props e))
        else if decide (n = "HeaderUserAvatar") then
          Some (call_HeaderUserAvatar
                  {| src := string_prop (props_of e !! "src");
                     name := string_prop (props_of e !! "name");
                     className := string_prop (props_of e !! "className") |})
        else None
      else if decide (m = "@/components/layout/app-sidebar" ∧ n = "AppSidebar") then
        Some match revision with
             | heroicons_revision => call_AppSidebar
             | lucide_revision => call_AppSidebar_lucide
             end
      else if decide (m = "@/components/layout/app-layout" ∧ n = "AppLayout") then
        Some call_AppLayout
      else None
  | _ => None
  end.

(** React renders a tree top down: an element bound to a component of the
    repository is replaced by what the component returns, which is
    rendered in turn; any other element is kept and its children are
    rendered from left to right.  The first error ends the render.
    [fuel] bounds the depth; what lies deeper is left as it is. *)
Fixpoint expand (L : Imports) (ctx : RenderContext L)
    (revision : SidebarRevision) (fuel : nat) (e : Element)
    : Outcome Element :=
  match fuel with
  | O => Returns e
  | S fuel' =>
      match resolve_import revision e with
      | Some call =>
          tree ← render L ctx call; expand L ctx revision fuel' tree
      | None =>
          match e with
          | Elem t p cs =>
              cs' ← mapM (expand L ctx revision fuel') cs;
              mret (Elem t p cs')
          | other => mret other
          end
      end
  end.

(** The elements of a tree that are still bound to a component of the
    repository. *)
Definition local_references (revision : SidebarRevision) (tree : Element)
    : list Element :=
  filter (λ d, is_Some (resolve_import revision d)) (descendants tree).

(** ** Hook state and the import pipeline *)

(** Imports whose [twMerge] always throws. *)
Definition twMerge_throwing_imports : Imports :=
  {| clsx := λ values, Returns (clsx_model values);
     twMerge := λ _, Throws "twMerge failed";
     RenderContext := ReferenceContext;
     SidebarContext := string;
     useSidebar := λ ctx, Returns (default "collapsed" (sidebar ctx));
     state := λ s, s |}.




(** Imports that return fixed values: the sidebar state [s] and the class
    list [c].  Rendering under them shows the tree a component builds
    from these values. *)
Definition probe_imports (s c : string) : Imports :=
  {| clsx := λ _, Returns "";
     twMerge := λ _, Returns c;
     RenderContext := unit;
     SidebarContext := string;
     useSidebar := λ _, Returns s;
     state := λ sidebar, sidebar |}.

Definition probe_view (call : ComponentCall) (s c : string) : Element :=
  match render (probe_imports s c) tt call with
  | Returns tree => tree
  | Throws _ => Text ""
  end.

(** The sidebar state a component reads before it calls [cn], when it
    reads one. *)
Definition sidebar_read (L : Imports) (ctx : RenderContext L)
    (uses_sidebar : bool) : Outcome string :=
  if uses_sidebar then state L <$> useSidebar L ctx else Returns "".

(** * Theorems *)

(** ** Helper lemmas *)

Lemma bind_Returns {A B} (m : Outcome A) (f : A -> Outcome B) (b : B) :
  m ≫= f = Returns b -> ∃ a, m = Returns a ∧ f a = Returns b.
Proof. destruct m as [a|e]; simpl; [eauto | discriminate]. Qed.

Lemma bind_Throws {A B} (m : Outcome A) (f : A -> Outcome B) (e : string) :
  m ≫= f = Throws e -> m = Throws e ∨ ∃ a, m = Returns a ∧ f a = Throws e.
Proof. destruct m as [a|e']; simpl; [eauto | intros [= ->]; auto]. Qed.

Lemma cn_Throws (L : Imports) (ctx : RenderContext L) values e :
  cn L values = Throws e -> library_error L ctx e.
Proof.
  intros H. apply bind_Throws in H as [H | (v & _ & H)].
  - left. eauto.
  - right. left. eauto.
Qed.

Lemma cn_Returns (L : Imports) (ctx : RenderContext L) values :
  libraries_return L ctx -> ∃ c, cn L values = Returns c.
Proof.
  intros (Hclsx & Htw & _). unfold cn.
  destruct (Hclsx values) as [v ->]. simpl. apply Htw.
Qed.

(** ** The reference instances meet the library contract *)

Lemma add_class_empty_l (y : string) : add_class "" y = y.
Proof. unfold add_class. destruct y; reflexivity. Qed.

Lemma clsx_model_acc_filter (acc : string) (values : list ClassValue) :
  foldl (λ str x, if truthy x then add_class str (toVal x) else str) acc
        (filter (λ v, truthy v) values)
  = foldl (λ str x, if truthy x then add_class str (toVal x) else str) acc values.
Proof.
  revert acc. induction values as [|v values IH]; intros acc; [reflexivity|].
  destruct (truthy v) eqn:Hv.
  - rewrite filter_cons_True by (by rewrite Hv). simpl. rewrite Hv. apply IH.
  - rewrite filter_cons_False by (rewrite Hv; simpl; tauto).
    simpl. rewrite Hv. apply IH.
Qed.

Lemma toVal_array (items : list ClassValue) :
  toVal (CVArray items) = clsx_model items.
Proof. reflexivity. Qed.

Lemma append_assoc (a b c : string) : (a +:+ b) +:+ c = a +:+ (b +:+ c).
Proof.
  induction a as [|x a IH]; [reflexivity|].
  change (String x ((a +:+ b) +:+ c) = String x (a +:+ (b +:+ c))).
  f_equal. exact IH.
Qed.

Lemma append_nonempty (a b : string) : a ≠ "" -> a +:+ b ≠ "".
Proof. destruct a; [congruence | discriminate]. Qed.

Lemma eqb_nonempty (s : string) : s ≠ "" -> String.eqb s "" = false.
Proof. intros H. by apply String.eqb_neq. Qed.

Lemma clsx_model_acc_names (acc : string) (names : list string) :
  acc ≠ "" -> Forall (λ s, s ≠ "") names ->
  foldl (λ str x, if truthy x then add_class str (toVal x) else str) acc
        (CVString <$> names)
  = String.concat " " (acc :: names).
Proof.
  intros Hacc Hnames. revert acc Hacc.
  induction Hnames as [|n names Hn _ IH]; intros acc Hacc; [reflexivity|].
  rewrite fmap_cons. cbn [foldl truthy toVal].
  rewrite (eqb_nonempty n Hn). cbn [negb]. unfold add_class at 2.
  rewrite (eqb_nonempty n Hn), (eqb_nonempty acc Hacc).
  rewrite IH by (by apply append_nonempty).
  destruct names as [|m names]; simpl; [reflexivity|].
  by rewrite !append_assoc.
Qed.

Lemma clsx_model_names (names : list string) :
  Forall (λ s, s ≠ "") names ->
  clsx_model (CVString <$> names) = String.concat " " names.
Proof.
  intros Hnames. destruct Hnames as [|n names Hn Hnames]; [reflexivity|].
  unfold clsx_model. rewrite fmap_cons. cbn [foldl truthy toVal].
  rewrite (eqb_nonempty n Hn). cbn [negb]. rewrite add_class_empty_l.
  by apply clsx_model_acc_names.
Qed.

Lemma group_of_listed (class group : string) :
  group_of class = Some group -> (class, group) ∈ class_groups.
Proof. unfold group_of. apply elem_of_list_to_map_2. Qed.

Lemma twMerge_model_table :
  Forall (λ ag : string * string,
    Forall (λ bh : string * string,
      ag.2 = bh.2 -> twMerge_model (ag.1 +:+ " " +:+ bh.1) = bh.1)
      class_groups) class_groups.
Proof. apply (bool_decide_unpack _). vm_compute. reflexivity. Qed.

Lemma twMerge_model_later_wins (a b : string) :
  conflicts_model a b = true -> twMerge_model (a +:+ " " +:+ b) = b.
Proof.
  unfold conflicts_model.
  destruct (group_of a) as [g|] eqn:Ha; [|discriminate].
  destruct (group_of b) as [h|] eqn:Hb; [|discriminate].
  intros Hgh. apply String.eqb_eq in Hgh.
  apply group_of_listed in Ha, Hb.
  pose proof twMerge_model_table as Htable.
  rewrite Forall_forall in Htable. specialize (Htable _ Ha).
  rewrite Forall_forall in Htable. exact (Htable _ Hb Hgh).
Qed.

Lemma reference_contract :
  LibraryContract reference_imports (λ a b, conflicts_model a b = true).
Proof.
  split; simpl.
  - intros values. f_equal. apply clsx_model_acc_filter.
  - intros items values. f_equal. unfold clsx_model at 1. cbn [foldl truthy].
    rewrite add_class_empty_l, toVal_array. unfold clsx_model.
    by rewrite foldl_app.
  - intros names Hnames. f_equal. by apply clsx_model_names.
  - intros a b Hab. f_equal. by apply twMerge_model_later_wins.
Qed.

(** ** The class-name helper *)

(** C1. [cn] applied to any sequence of class values returns exactly
    [twMerge(clsx(values))].  Hence, whenever clsx and tailwind-merge keep
    their documented contract, [cn] drops falsy arguments, flattens
    arrays, hands the space-joined class names to [twMerge], and of two
    conflicting classes returns the later one. *)
Theorem cn_is_twMerge_of_clsx (L : Imports) (conflicts : string -> string -> Prop)
    (values : list ClassValue) :
  cn L values = (clsx L values ≫= twMerge L)
  ∧ (LibraryContract L conflicts ->
       cn L (filter (λ v, truthy v) values) = cn L values
       ∧ (∀ items, cn L (CVArray items :: values) = cn L (items ++ values))
       ∧ (∀ names, Forall (λ s, s ≠ "") names ->
            cn L (CVString <$> names) = twMerge L (String.concat " " names))
       ∧ (∀ a b, a ≠ "" -> b ≠ "" -> conflicts a b ->
            cn L [CVString a; CVString b] = Returns b)).
Proof.
  split; [reflexivity|].
  intros [Hfalsy Hflat Hjoin Hwins]. repeat split.
  - unfold cn. by rewrite Hfalsy.
  - intros items. unfold cn. by rewrite Hflat.
  - intros names Hnames. unfold cn. by rewrite Hjoin.
  - intros a b Ha Hb Hab.
    change (clsx L (CVString <$> [a; b]) ≫= twMerge L = Returns b).
    rewrite (Hjoin [a; b]) by (repeat constructor; assumption).
    simpl. by apply Hwins.
Qed.

Lemma cn_is_twMerge_of_clsx_witness :
  cn reference_imports [CVString "flex"; CVNull; CVString "px-4"]
  = Returns "flex px-4"
  ∧ cn reference_imports [CVString "justify-end"; CVString "justify-center"]
    = Returns "justify-center".
Proof.
  destruct (cn_is_twMerge_of_clsx reference_imports
              (λ a b, conflicts_model a b = true)
              [CVString "flex"; CVNull; CVString "px-4"]) as [Hcn Hcontract].
  split.
  - rewrite Hcn. vm_compute. reflexivity.
  - destruct (Hcontract reference_contract) as (_ & _ & _ & Hwins).
    apply Hwins; [discriminate | discriminate | vm_compute; reflexivity].
Defined.

(** ** The user avatar *)

Lemma string_truthy_spec (v : option string) :
  string_truthy v = true <-> ∃ url, v = Some url ∧ url ≠ "".
Proof.
  destruct v as [s|]; simpl.
  - rewrite negb_true_iff, String.eqb_neq. split.
    + intros Hs. by exists s.
    + by intros (url & [= ->] & Hurl).
  - split; [discriminate | by intros (url & [=] & _)].
Qed.

(** Runs [HeaderUserAvatar] to the tree it returns, in both branches of
    the [src] test. *)
Ltac run_avatar H :=
  unfold HeaderUserAvatar in H;
  match type of H with
  | context [cn ?L ?vs] => destruct (cn L vs) as [c|e]; [|discriminate H]
  end;
  simpl in H; injection H as <-.



(** C8, as stated, fails: a [src] prop that is supplied but empty does not
    render the profile image. *)
Lemma HeaderUserAvatar_empty_src_no_image :
  let p := {| src := Some ""; name := None; className := None |} in
  ¬ (shows_image (HeaderUserAvatar reference_imports p) <-> is_Some (src p)).
Proof.
  intros p [_ Himage].
  destruct (Himage (mk_is_Some _ _ eq_refl)) as (tree & Htree & Himg).
  injection Htree as <-. apply Himg. vm_compute. reflexivity.
Qed.

(** C8, amended. [HeaderUserAvatar] renders the profile image exactly when
    [src] is a non-empty string, and the initials circle otherwise (also
    for an empty [src]).  When [name] is omitted it defaults to ['User']:
    the button's accessible label is ['User menu for User'] and the
    initials in the circle are those of ['User']. *)
Theorem HeaderUserAvatar_image_iff_nonempty_src
    (L : Imports) (p : HeaderUserAvatarProps) (tree : Element) :
  HeaderUserAvatar L p = Returns tree ->
  ∃ button avatar,
    find_all (Tag "button") tree = [button]
    ∧ children_of button = [avatar]
    ∧ (find_all (Tag "img") tree ≠ [] <-> ∃ url, src p = Some url ∧ url ≠ "")
    ∧ (∀ url, src p = Some url -> url ≠ "" ->
         type_of avatar = Some (Tag "img")
         ∧ attr "src" avatar = Some (PStr url)
         ∧ attr "alt" avatar = Some (PStr (default "User" (name p))))
    ∧ (string_truthy (src p) = false ->
         type_of avatar = Some (Tag "div")
         ∧ inner_text avatar = getInitials (default "User" (name p)))
    ∧ attr "aria-label" button
      = Some (PStr ("User menu for " +:+ default "User" (name p)))
    ∧ (name p = None ->
         attr "aria-label" button = Some (PStr "User menu for User")
         ∧ (string_truthy (src p) = false ->
              inner_text avatar = getInitials "User")).
Proof.
  intros H. run_avatar H.
  destruct (string_truthy (src p)) eqn:Hsrc.
  - pose proof (proj1 (string_truthy_spec _) Hsrc) as (url & Hurl & Hne).
    do 2 eexists. split; [reflexivity|]. split; [reflexivity|].
    split; [split; [eauto | discriminate]|].
    split; [|split; [discriminate|]].
    + intros url' Hurl' _. rewrite Hurl'. repeat split; reflexivity.
    + split; [reflexivity|]. intros ->. split; [reflexivity | discriminate].
  - do 2 eexists. split; [reflexivity|]. split; [reflexivity|].
    split; [split; [intros Himg; by destruct Himg|]|].
    { intros Hex. apply string_truthy_spec in Hex. congruence. }
    split; [|split; [intros _; split; reflexivity|]].
    + intros url Hurl Hne.
      assert (string_truthy (src p) = true) by (apply string_truthy_spec; eauto).
      congruence.
    + split; [reflexivity|]. intros ->. split; [reflexivity|].
      intros _. reflexivity.
Qed.

Lemma HeaderUserAvatar_image_iff_nonempty_src_witness :
  ∃ tree button avatar,
    HeaderUserAvatar reference_imports
      {| src := Some "/me.png"; name := None; className := None |}
    = Returns tree
    ∧ find_all (Tag "button") tree = [button]
    ∧ children_of button = [avatar]
    ∧ type_of avatar = Some (Tag "img")
    ∧ attr "src" avatar = Some (PStr "/me.png")
    ∧ attr "aria-label" button = Some (PStr "User menu for User").
Proof.
  pose (p := {| src := Some "/me.png"; name := None; className := None |}).
  edestruct (HeaderUserAvatar_image_iff_nonempty_src reference_imports p)
    as (button & avatar & Hbutton & Havatar & _ & Himg & _ & _ & Hname);
    [reflexivity|].
  destruct (Himg "/me.png" eq_refl ltac:(discriminate)) as (Htype & Hsrc & _).
  destruct (Hname eq_refl) as [Hlabel _].
  eexists _, button, avatar. split; [reflexivity|].
  repeat split; assumption.
Defined.

(** ** The dashboard page *)

(** C3. [DashboardPage] takes no props; every render, under any imports
    and in any render context, returns the same tree, whose grid holds
    the four stat cards 'Total Scans'/'128', 'Critical Findings'/'14',
    'Providers Connected'/'5', 'Last Scan'/'2h ago', in this order. *)
Theorem DashboardPage_static_stat_cards (L : Imports) (ctx : RenderContext L) :
  render L ctx call_DashboardPage = Returns DashboardPage
  ∧ stat_cards DashboardPage
    = [ ("Total Scans", "128"); ("Critical Findings", "14");
        ("Providers Connected", "5"); ("Last Scan", "2h ago") ].
Proof. split; reflexivity. Qed.

(** ** The layout shell *)

(** C4. The root route's component renders [AppLayout] (inside
    [Suspense]); [AppLayout] renders a [Header] with two sections, the
    first holding a [HeaderBrand] and the second a [HeaderUserAvatar],
    followed by a [SidebarProvider] that contains the [AppSidebar] and a
    [main] region holding the [Outlet]; the routed page put in place of
    the [Outlet] is the only child of that [main] region. *)
Theorem route_layout_page_layering (L : Imports) (ctx : RenderContext L) :
  skeleton <$> render L ctx (component RootRoute.Route)
  = Returns
      (Elem (Component "react" "Suspense") ∅
         [Elem (Component "@/components/layout/app-layout" "AppLayout") ∅ []])
  ∧ skeleton <$> render L ctx call_AppLayout
    = Returns
        (Elem (Tag "div") ∅
           [Elem (Component "@/components/layout/app-header" "Header") ∅
              [Elem (Component "@/components/layout/app-header" "HeaderSection") ∅
                 [Elem (Component "@/components/layout/app-header" "HeaderBrand") ∅ []];
               Elem (Component "@/components/layout/app-header" "HeaderSection") ∅
                 [Elem (Component "@/components/layout/app-header" "HeaderUserAvatar") ∅ []]];
            Elem (Component "proqio-ui" "SidebarProvider") ∅
              [Elem (Component "@/components/layout/app-sidebar" "AppSidebar") ∅ [];
               Elem (Tag "main") ∅
                 [Elem (Component "@tanstack/react-router" "Outlet") ∅ []]]])
  ∧ ∀ page,
      ∃ region,
        main_region (fill_outlet page AppLayout) = Some region
        ∧ type_of region = Some (Tag "main")
        ∧ children_of region = [page].
Proof.
  split; [reflexivity|]. split; [reflexivity|].
  intros page. eexists. repeat split; reflexivity.
Qed.

(** ** The sidebar *)



(** C9. The two revisions of [AppSidebar] are equivalent: in every render
    context, renaming the Heroicons components of the first to the lucide
    components of the second turns one result into the other (same
    structure, attributes, class names, chevron choice and errors); the
    renaming touches icon components only, and both revisions have the
    single nav item 'Home' to '/'. *)
Theorem AppSidebar_revisions_equivalent (L : Imports) (ctx : RenderContext L) :
  map_types heroicons_to_lucide <$> AppSidebarHeroicons.AppSidebar L ctx
  = AppSidebarLucide.AppSidebar L ctx
  ∧ (∀ t, heroicons_to_lucide t ≠ t ->
       is_icon t = true ∧ is_icon (heroicons_to_lucide t) = true)
  ∧ (λ i, (AppSidebarHeroicons.label i, AppSidebarHeroicons.to i))
      <$> AppSidebarHeroicons.navItems = [("Home", "/")]
  ∧ (λ i, (AppSidebarLucide.label i, AppSidebarLucide.to i))
      <$> AppSidebarLucide.navItems = [("Home", "/")]
  ∧ heroicons_to_lucide <$> (AppSidebarHeroicons.Icon <$> AppSidebarHeroicons.navItems)
    = AppSidebarLucide.Icon <$> AppSidebarLucide.navItems.
Proof.
  split; [|split; [|repeat split; reflexivity]].
  - unfold AppSidebarHeroicons.AppSidebar, AppSidebarLucide.AppSidebar.
    destruct (useSidebar L ctx) as [sidebar|e]; [|reflexivity]. simpl.
    destruct (cn L _) as [c|e]; [|reflexivity]. simpl.
    destruct (String.eqb (state L sidebar) "expanded"); reflexivity.
  - intros t Ht. unfold heroicons_to_lucide in *.
    repeat case_decide; subst; try done; split; reflexivity.
Qed.

Lemma AppSidebar_revisions_equivalent_witness :
  is_icon (Component "@heroicons/react/24/outline" "HomeIcon") = true
  ∧ is_icon (Component "lucide-react" "House") = true.
Proof.
  apply (AppSidebar_revisions_equivalent reference_imports
           {| sidebar := Some "expanded"; renders := 0 |}).
  vm_compute. discriminate.
Defined.

(** ** Errors *)

Lemma useSidebar_Throws (L : Imports) (ctx : RenderContext L) e :
  useSidebar L ctx = Throws e -> library_error L ctx e.
Proof. intros H. right. right. exact H. Qed.

(** Splits the result of a component body into the outcomes of the
    library calls it makes, in call order. *)
Ltac run_calls L ctx Hlibs :=
  repeat match goal with
    | |- context [useSidebar L ctx] =>
        let H := fresh "Hcall" in
        destruct (useSidebar L ctx) eqn:H; simpl;
        [| split; [intros ? [= <-]; eauto using useSidebar_Throws
                  | intros Hlibs; destruct Hlibs as (_ & _ & ? & ?); congruence]]
    | |- context [cn L ?vs] =>
        let H := fresh "Hcall" in
        destruct (cn L vs) eqn:H; simpl;
        [| split; [intros ? [= <-]; eauto using cn_Throws
                  | intros Hlibs;
                    destruct (cn_Returns L ctx vs Hlibs); congruence]]
    end.


Lemma render_returns_or_library_threw
    (L : Imports) (ctx : RenderContext L) (call : ComponentCall) :
  (∀ e, render L ctx call = Throws e -> library_error L ctx e)
  ∧ (libraries_return L ctx ->
       ∃ markup, render L ctx call = Returns markup ∧ is_Some (type_of markup)).
Proof.
  destruct call; simpl.
  all: unfold Header, HeaderSection, HeaderBrand, HeaderDivider,
         HeaderCompanyLogo, HeaderUserAvatar, AppSidebarHeroicons.AppSidebar,
         AppSidebarLucide.AppSidebar.
  all: try match goal with
         | |- context [prop_truthy ?v] => destruct (prop_truthy v)
         end.
  all: run_calls L ctx Hlibs.
  all: split; [intros ? [=] | intros _; eexists; split; [reflexivity|]].
  all: by eexists.
Qed.

(** The outcome of a component that reads the sidebar state (or not),
    calls [clsx] and [twMerge] once, and builds its tree from the results
    without any other step. *)
Lemma import_pipeline_outcomes (L : Imports) (ctx : RenderContext L)
    (uses_sidebar : bool) (args : string -> list ClassValue)
    (view : string -> string -> Element) (result : Outcome Element) :
  result = (s ← sidebar_read L ctx uses_sidebar;
            c ← cn L (args s);
            Returns (view s c)) ->
  (∀ e, uses_sidebar = true -> useSidebar L ctx = Throws e ->
        result = Throws e)
  ∧ (∀ s e, sidebar_read L ctx uses_sidebar = Returns s ->
            clsx L (args s) = Throws e ->
            result = Throws e)
  ∧ (∀ s v e, sidebar_read L ctx uses_sidebar = Returns s ->
              clsx L (args s) = Returns v ->
              twMerge L v = Throws e ->
              result = Throws e)
  ∧ (∀ s v c, sidebar_read L ctx uses_sidebar = Returns s ->
              clsx L (args s) = Returns v ->
              twMerge L v = Returns c ->
              result = Returns (view s c)).
Proof.
  intros ->. unfold cn. repeat split.
  - intros e -> Hsidebar. unfold sidebar_read. by rewrite Hsidebar.
  - intros s e -> Hclsx. simpl. by rewrite Hclsx.
  - intros s v e -> Hclsx Htw. simpl. rewrite Hclsx. simpl. by rewrite Htw.
  - intros s v c -> Hclsx Htw. simpl. rewrite Hclsx. simpl. by rewrite Htw.
Qed.

(** Shows that [call] is the pipeline with the given arguments of [cn],
    its view being what it renders under [probe_imports]. *)
Ltac pipeline_of uses args call :=
  exists uses, args, (probe_view call);
  split;
  [ intros s c; unfold probe_view; simpl;
    unfold HeaderCompanyLogo, AppSidebarHeroicons.AppSidebar,
      AppSidebarLucide.AppSidebar; simpl;
    repeat match goal with
      | |- context [prop_truthy ?v] => destruct (prop_truthy v)
      end;
    by eexists
  | split; [discriminate|];
    intros _ L ctx;
    apply (import_pipeline_outcomes L ctx uses args (probe_view call));
    unfold probe_view; simpl;
    unfold HeaderCompanyLogo, AppSidebarHeroicons.AppSidebar,
      AppSidebarLucide.AppSidebar;
    repeat match goal with
      | |- context [prop_truthy ?v] => destruct (prop_truthy v)
      | |- context [useSidebar L ctx] => destruct (useSidebar L ctx)
      end;
    reflexivity ].

(** C7. No component raises, catches or transforms an error of its own.
    For every component and every input: a render either returns an
    element or throws an error that one of the imported functions threw,
    and returns markup when they return.  More precisely, a component
    that calls no imported function always returns its markup, and every
    other component is one fixed pipeline, the same for all imports: it
    reads the sidebar state (the sidebar only), calls [clsx] on fixed
    arguments and [twMerge] on the result, and builds its markup from the
    values returned.  The error of the first call that throws
    ([useSidebar], then [clsx], then [twMerge]) is the error of the
    render, unchanged; when all three return, the render returns. *)
Theorem render_raises_only_library_errors (call : ComponentCall) :
  (∀ (L : Imports) (ctx : RenderContext L),
     (∀ e, render L ctx call = Throws e -> library_error L ctx e)
     ∧ (libraries_return L ctx ->
          ∃ markup,
            render L ctx call = Returns markup ∧ is_Some (type_of markup)))
  ∧ ∃ (uses_sidebar : bool) (args : string -> list ClassValue)
      (view : string -> string -> Element),
      (∀ s c, is_Some (type_of (view s c)))
      ∧ (calls_cn call = false ->
           ∀ (L : Imports) (ctx : RenderContext L),
             render L ctx call = Returns (view "" ""))
      ∧ (calls_cn call = true ->
           ∀ (L : Imports) (ctx : RenderContext L),
             (∀ e, uses_sidebar = true -> useSidebar L ctx = Throws e ->
                   render L ctx call = Throws e)
             ∧ (∀ s e, sidebar_read L ctx uses_sidebar = Returns s ->
                       clsx L (args s) = Throws e ->
                       render L ctx call = Throws e)
             ∧ (∀ s v e, sidebar_read L ctx uses_sidebar = Returns s ->
                         clsx L (args s) = Returns v ->
                         twMerge L v = Throws e ->
                         render L ctx call = Throws e)
             ∧ (∀ s v c, sidebar_read L ctx uses_sidebar = Returns s ->
                         clsx L (args s) = Returns v ->
                         twMerge L v = Returns c ->
                         render L ctx call = Returns (view s c))).
Proof.
  split; [intros L ctx; apply render_returns_or_library_threw|].
  destruct call as [p|p|p|p|p|p| | | | | | |cell].
  - pipeline_of false
      (λ _ : string,
         [CVString "flex h-14 items-center justify-between border-b border-slate-200 bg-white px-6 dark:border-slate-800 dark:bg-slate-950";
          class_value (attrs p !! "className")])
      (call_Header p).
  - pipeline_of false
      (λ _ : string,
         [CVString "flex items-center gap-3";
          class_value (attrs p !! "className")])
      (call_HeaderSection p).
  - pipeline_of false
      (λ _ : string,
         [CVString "text-base font-semibold text-slate-900 dark:text-white";
          class_value (attrs p !! "className")])
      (call_HeaderBrand p).
  - pipeline_of false
      (λ _ : string,
         [CVString "h-5 w-px bg-slate-200 dark:bg-slate-700";
          class_value (attrs p !! "className")])
      (call_HeaderDivider p).
  - pipeline_of false
      (λ _ : string,
         [CVString (if prop_truthy (attrs p !! "src")
                    then "h-7 w-auto rounded object-contain"
                    else "flex h-7 w-7 items-center justify-center rounded bg-slate-100 dark:bg-slate-800");
          class_value (attrs p !! "className")])
      (call_HeaderCompanyLogo p).
  - pipeline_of false
      (λ _ : string,
         [CVString "rounded-full outline-none ring-offset-2 focus-visible:ring-2 focus-visible:ring-slate-400";
          from_option CVString CVUndefined (className p)])
      (call_HeaderUserAvatar p).
  - pipeline_of true
      (λ s : string,
         [CVString "flex";
          CVString (if String.eqb s "expanded"
                    then "justify-end" else "justify-center")])
      call_AppSidebar.
  - pipeline_of true
      (λ s : string,
         [CVString "flex";
          CVString (if String.eqb s "expanded"
                    then "justify-end" else "justify-center")])
      call_AppSidebar_lucide.
  - exists false, (λ _, []), (λ _ _, DashboardPage).
    split; [intros s c; by eexists|]. split; [reflexivity | discriminate].
  - exists false, (λ _, []), (λ _ _, HomePage).
    split; [intros s c; by eexists|]. split; [reflexivity | discriminate].
  - exists false, (λ _, []), (λ _ _, AppLayout).
    split; [intros s c; by eexists|]. split; [reflexivity | discriminate].
  - exists false, (λ _, []), (λ _ _, RootLayout).
    split; [intros s c; by eexists|]. split; [reflexivity | discriminate].
  - exists false, (λ _, []), (λ _ _, App cell).
    split; [intros s c; by eexists|]. split; [reflexivity | discriminate].
Qed.

Lemma render_raises_only_library_errors_witness :
  render twMerge_throwing_imports {| sidebar := None; renders := 0 |}
         (call_Header {| attrs := ∅; children := None |})
  = Throws "twMerge failed"
  ∧ render throwing_imports {| sidebar := None; renders := 0 |}
           call_AppSidebar
    = Throws "clsx failed"
  ∧ ∃ markup,
      render reference_imports {| sidebar := Some "expanded"; renders := 0 |}
             (call_HeaderCompanyLogo {| attrs := ∅; children := None |})
      = Returns markup
      ∧ is_Some (type_of markup).
Proof.
  split; [|split].
  - destruct (render_raises_only_library_errors
                (call_Header {| attrs := ∅; children := None |}))
      as (_ & uses_sidebar & args & view & _ & _ & Hpipeline).
    destruct (Hpipeline eq_refl twMerge_throwing_imports
                {| sidebar := None; renders := 0 |})
      as (_ & _ & HtwMerge & _).
    destruct uses_sidebar; eapply HtwMerge; reflexivity.
  - destruct (render_raises_only_library_errors call_AppSidebar)
      as (_ & uses_sidebar & args & view & _ & _ & Hpipeline).
    destruct (Hpipeline eq_refl throwing_imports
                {| sidebar := None; renders := 0 |})
      as (_ & Hclsx & _ & _).
    destruct uses_sidebar; eapply Hclsx; reflexivity.
  - apply (proj1 (render_raises_only_library_errors
                    (call_HeaderCompanyLogo {| attrs := ∅; children := None |}))
                 reference_imports
                 {| sidebar := Some "expanded"; renders := 0 |}).
    split; [|split]; simpl; eauto.
Defined.

(** ** The counter *)

Lemma ulp_small (z : Z) : Z.abs z < 2 ^ 53 -> ulp z = 1.
Proof.
  intros Hz. unfold ulp.
  assert (Z.log2 (Z.abs z) < 53) as Hlog.
  { destruct (Z.eq_dec (Z.abs z) 0) as [-> | Hne]; [reflexivity|].
    apply Z.log2_lt_pow2; lia. }
  replace (Z.max 0 (Z.log2 (Z.abs z) - 52)) with 0 by lia. reflexivity.
Qed.

Lemma round_to_double_exact (z : Z) :
  Z.abs z <= 2 ^ 53 -> round_to_double z = z.
Proof.
  intros Hz.
  destruct (Z.eq_dec (Z.abs z) (2 ^ 53)) as [Heq | Hne].
  - destruct (Z.abs_eq_or_opp z) as [Habs | Habs]; rewrite Habs in Heq.
    + subst z. vm_compute. reflexivity.
    + replace z with (- 2 ^ 53) by lia. vm_compute. reflexivity.
  - unfold round_to_double. rewrite ulp_small by lia.
    rewrite Z.mod_1_r, Z.div_1_r. simpl. lia.
Qed.

Lemma number_add_one (k : Z) :
  0 <= k <= 2 ^ 53 -> number_add k 1 = Z.min (k + 1) (2 ^ 53).
Proof.
  intros Hk. unfold number_add.
  destruct (Z.eq_dec k (2 ^ 53)) as [-> | Hne].
  - vm_compute. reflexivity.
  - rewrite round_to_double_exact by lia. lia.
Qed.

Lemma click_step (cell : option Z) :
  click cell = Some (number_add (useState 0 cell) 1).
Proof. reflexivity. Qed.

Lemma displayed_count_App (cell : option Z) :
  displayed_count (App cell) = Some (useState 0 cell).
Proof. reflexivity. Qed.

Lemma after_clicks_succ (n : N) :
  after_clicks (N.succ n) = click (after_clicks n).
Proof. unfold after_clicks. apply N.iter_succ. Qed.

Lemma useState_after_clicks (n : N) :
  useState 0 (after_clicks n) = Z.min (Z.of_N n) (2 ^ 53).
Proof.
  induction n as [|n IH] using N.peano_ind; [reflexivity|].
  rewrite after_clicks_succ, click_step, IH. cbn [useState default].
  rewrite number_add_one by lia. rewrite N2Z.inj_succ. unfold id. lia.
Qed.

Lemma displayed_after_clicks (n : N) :
  displayed_count (App (after_clicks n)) = Some (Z.min (Z.of_N n) (2 ^ 53)).
Proof. by rewrite displayed_count_App, useState_after_clicks. Qed.

(** C10, as stated, fails: JavaScript numbers are doubles, and after
    2^53 + 1 clicks the counter still shows 2^53. *)
Lemma App_count_saturates :
  displayed_count (App (after_clicks 9007199254740993))
  ≠ Some (Z.of_N 9007199254740993).
Proof. rewrite displayed_after_clicks. vm_compute. intros [=]. Qed.

(** C10, amended. [count] starts at 0 and every click applies
    [count => count + 1] in double arithmetic: after [n] clicks the button
    shows [min n 2^53], which is [n] itself for every [n <= 2^53], and is
    never negative. *)
Theorem App_count_after_clicks (n : N) :
  displayed_count (App (after_clicks 0)) = Some 0
  ∧ after_clicks (N.succ n)
    = Some (number_add (useState 0 (after_clicks n)) 1)
  ∧ displayed_count (App (after_clicks n)) = Some (Z.min (Z.of_N n) (2 ^ 53))
  ∧ (Z.of_N n <= 2 ^ 53 ->
       displayed_count (App (after_clicks n)) = Some (Z.of_N n))
  ∧ ∃ shown, displayed_count (App (after_clicks n)) = Some shown ∧ 0 <= shown.
Proof.
  split; [reflexivity|]. split; [by rewrite after_clicks_succ, click_step|].
  split; [apply displayed_after_clicks|]. split.
  - intros Hn. rewrite displayed_after_clicks. f_equal. lia.
  - eexists. split; [apply displayed_after_clicks | lia].
Qed.

Lemma App_count_after_clicks_witness :
  displayed_count (App (after_clicks 3)) = Some 3.
Proof.
  apply (App_count_after_clicks 3). vm_compute. discriminate.
Defined.

(** ** What a render depends on *)







(** * Further properties of the components *)

(** ** Header wrappers: attributes and children *)

(** Reads an attribute off a JSX props object built from literal
    attributes and one spread of the caller's remaining props. *)
Ltac props_lookup :=
  unfold attr, jsx, props_of, jsx_props, rest_props;
  cbn [foldl foldr];
  rewrite ?lookup_union, ?lookup_delete, ?lookup_insert, ?lookup_empty;
  repeat case_decide; simplify_eq;
  try reflexivity;
  try match goal with
    | |- context [?o ∪ None] => destruct o; reflexivity
    end.

(** Runs a component body whose only call is [cn]. *)
Ltac run_cn H c Hc :=
  match type of H with
  | context [cn ?L ?vs] =>
      destruct (cn L vs) as [c|?] eqn:Hc; [|discriminate H]
  end;
  simpl in H; injection H as <-.

(** [Header], [HeaderSection] and [HeaderBrand] are thin wrappers: the
    element they return has the class list computed by [cn] from the base
    classes and the caller's [className] (the caller's own value never
    reaches the element unmerged), and every other attribute of the
    caller reaches it unchanged; nothing else is added. *)
Theorem header_wrappers_forward_attributes
    (L : Imports) (p : Props) (tree : Element) :
  (Header L p = Returns tree ->
     ∃ c,
       cn L [CVString "flex h-14 items-center justify-between border-b border-slate-200 bg-white px-6 dark:border-slate-800 dark:bg-slate-950";
             class_value (attrs p !! "className")] = Returns c
       ∧ type_of tree = Some (Tag "header")
       ∧ children_of tree = child_nodes (children p)
       ∧ ∀ k, attr k tree
              = if decide (k = "className") then Some (PStr c) else attrs p !! k)
  ∧ (HeaderSection L p = Returns tree ->
     ∃ c,
       cn L [CVString "flex items-center gap-3";
             class_value (attrs p !! "className")] = Returns c
       ∧ type_of tree = Some (Tag "div")
       ∧ children_of tree = child_nodes (children p)
       ∧ ∀ k, attr k tree
              = if decide (k = "className") then Some (PStr c) else attrs p !! k)
  ∧ (HeaderBrand L p = Returns tree ->
     ∃ c,
       cn L [CVString "text-base font-semibold text-slate-900 dark:text-white";
             class_value (attrs p !! "className")] = Returns c
       ∧ type_of tree = Some (Tag "span")
       ∧ ∀ k, attr k tree
              = if decide (k = "className") then Some (PStr c) else attrs p !! k).
Proof.
  repeat split; intros H.
  - unfold Header in H. run_cn H c Hc. exists c.
    repeat split; try reflexivity. intros k. props_lookup.
  - unfold HeaderSection in H. run_cn H c Hc. exists c.
    repeat split; try reflexivity. intros k. props_lookup.
  - unfold HeaderBrand in H. run_cn H c Hc. exists c.
    repeat split; try reflexivity. intros k. props_lookup.
Qed.

Lemma header_wrappers_forward_attributes_witness :
  ∃ tree,
    Header reference_imports
      {| attrs := {[ "id" := PStr "top"; "className" := PStr "px-4" ]};
         children := None |} = Returns tree
    ∧ attr "id" tree = Some (PStr "top")
    ∧ attr "className" tree
      = Some (PStr "flex h-14 items-center justify-between border-b border-slate-200 bg-white dark:border-slate-800 dark:bg-slate-950 px-4").
Proof.
  eexists. split; [reflexivity|].
  edestruct (header_wrappers_forward_attributes reference_imports
               {| attrs := {[ "id" := PStr "top"; "className" := PStr "px-4" ]};
                  children := None |})
    as [HHeader _].
  destruct (HHeader eq_refl) as (c & Hc & _ & _ & Hattr).
  split.
  - rewrite Hattr. reflexivity.
  - rewrite Hattr. rewrite decide_True by reflexivity.
    vm_compute in Hc. injection Hc as <-. reflexivity.
Defined.

(** [HeaderBrand] shows 'Infinitus' only when [children] is omitted:
    children that are given are rendered as they are, also when the
    caller passes none at all (an empty list), which leaves the brand
    empty. *)
Theorem HeaderBrand_default_children
    (L : Imports) (p : Props) (tree : Element) :
  HeaderBrand L p = Returns tree ->
  (children p = None -> children_of tree = [Text "Infinitus"])
  ∧ (∀ cs, children p = Some cs -> children_of tree = cs)
  ∧ (children_of tree = [] <-> children p = Some []).
Proof.
  intros H. unfold HeaderBrand in H. run_cn H c Hc.
  cbn [children_of jsx]. destruct (children p) as [cs|]; simpl.
  - repeat split; try congruence; intros; simplify_eq; reflexivity.
  - repeat split; try congruence; intros; simplify_eq.
Qed.

Lemma HeaderBrand_default_children_witness :
  ∃ tree,
    HeaderBrand reference_imports {| attrs := ∅; children := None |}
    = Returns tree
    ∧ children_of tree = [Text "Infinitus"].
Proof.
  eexists. split; [reflexivity|].
  edestruct (HeaderBrand_default_children reference_imports
               {| attrs := ∅; children := None |}) as (Hdefault & _ & _);
    [reflexivity|].
  apply Hdefault. reflexivity.
Defined.

(** [HeaderDivider] hides itself from assistive technology by default,
    but the caller's props are spread after the literal attribute: an
    [aria-hidden] given by the caller replaces the default.  The class
    list is always the one computed by [cn]; all other attributes and the
    children are forwarded. *)
Theorem HeaderDivider_aria_hidden_default
    (L : Imports) (p : Props) (tree : Element) :
  HeaderDivider L p = Returns tree ->
  ∃ c,
    cn L [CVString "h-5 w-px bg-slate-200 dark:bg-slate-700";
          class_value (attrs p !! "className")] = Returns c
    ∧ type_of tree = Some (Tag "div")
    ∧ attr "className" tree = Some (PStr c)
    ∧ attr "aria-hidden" tree
      = Some (default (PStr "true") (attrs p !! "aria-hidden"))
    ∧ (∀ k, k ≠ "className" -> k ≠ "aria-hidden" -> attr k tree = attrs p !! k)
    ∧ children_of tree = child_nodes (children p).
Proof.
  intros H. unfold HeaderDivider in H. run_cn H c Hc. exists c.
  split; [reflexivity|]. split; [reflexivity|].
  split; [props_lookup|]. split; [|split; [|reflexivity]].
  - props_lookup. by destruct (attrs p !! "aria-hidden").
  - intros k Hk1 Hk2. props_lookup.
Qed.

Lemma HeaderDivider_aria_hidden_default_witness :
  ∃ tree tree',
    HeaderDivider reference_imports {| attrs := ∅; children := None |}
    = Returns tree
    ∧ HeaderDivider reference_imports
        {| attrs := {[ "aria-hidden" := PStr "false" ]}; children := None |}
      = Returns tree'
    ∧ attr "aria-hidden" tree = Some (PStr "true")
    ∧ attr "aria-hidden" tree' = Some (PStr "false").
Proof.
  do 2 eexists. split; [reflexivity|]. split; [reflexivity|].
  split.
  - edestruct (HeaderDivider_aria_hidden_default reference_imports
                 {| attrs := ∅; children := None |})
      as (c & _ & _ & _ & Hhidden & _); [reflexivity|].
    exact Hhidden.
  - edestruct (HeaderDivider_aria_hidden_default reference_imports
                 {| attrs := {[ "aria-hidden" := PStr "false" ]};
                    children := None |})
      as (c & _ & _ & _ & Hhidden & _); [reflexivity|].
    exact Hhidden.
Defined.

(** ** The company logo *)

(** With a truthy [src], [HeaderCompanyLogo] returns an [img] that carries
    the given [src], the given [alt] or 'Company logo' when none is given,
    and the class list computed by [cn]; the caller's other attributes are
    forwarded and cannot replace these three.  Children given by the
    caller travel with the spread props and end up on the [img]. *)
Theorem HeaderCompanyLogo_image
    (L : Imports) (p : Props) (tree : Element) :
  prop_truthy (attrs p !! "src") = true ->
  HeaderCompanyLogo L p = Returns tree ->
  ∃ c,
    cn L [CVString "h-7 w-auto rounded object-contain";
          class_value (attrs p !! "className")] = Returns c
    ∧ type_of tree = Some (Tag "img")
    ∧ attr "src" tree = attrs p !! "src"
    ∧ attr "alt" tree = Some (default (PStr "Company logo") (attrs p !! "alt"))
    ∧ attr "className" tree = Some (PStr c)
    ∧ (∀ k, k ≠ "src" -> k ≠ "alt" -> k ≠ "className" ->
            attr k tree = attrs p !! k)
    ∧ children_of tree = child_nodes (children p).
Proof.
  intros Hsrc H. unfold HeaderCompanyLogo in H. rewrite Hsrc in H.
  run_cn H c Hc. exists c.
  split; [reflexivity|]. split; [reflexivity|].
  split; [|split; [props_lookup|split; [props_lookup|split; [|reflexivity]]]].
  - props_lookup. destruct (attrs p !! "src"); [reflexivity | discriminate Hsrc].
  - intros k Hk1 Hk2 Hk3. props_lookup.
Qed.

Lemma HeaderCompanyLogo_image_witness :
  ∃ tree,
    HeaderCompanyLogo reference_imports
      {| attrs := {[ "src" := PStr "/acme.svg"; "id" := PStr "logo" ]};
         children := None |} = Returns tree
    ∧ type_of tree = Some (Tag "img")
    ∧ attr "src" tree = Some (PStr "/acme.svg")
    ∧ attr "alt" tree = Some (PStr "Company logo")
    ∧ attr "id" tree = Some (PStr "logo").
Proof.
  eexists. split; [reflexivity|].
  edestruct (HeaderCompanyLogo_image reference_imports
               {| attrs := {[ "src" := PStr "/acme.svg"; "id" := PStr "logo" ]};
                  children := None |})
    as (c & _ & Htype & Hsrc & Halt & _ & Hrest & _); [reflexivity..|].
  split; [exact Htype|]. split; [exact Hsrc|]. split; [exact Halt|].
  rewrite Hrest by discriminate. reflexivity.
Defined.

(** Without a truthy [src] (omitted, or the empty string),
    [HeaderCompanyLogo] returns the placeholder: a [div] whose only
    attribute is the class list computed by [cn], holding one [svg]
    labelled with [alt] or 'Company logo'.  The caller's other attributes
    and children are not forwarded in this branch. *)
Theorem HeaderCompanyLogo_placeholder_drops_props
    (L : Imports) (p : Props) (tree : Element) :
  prop_truthy (attrs p !! "src") = false ->
  HeaderCompanyLogo L p = Returns tree ->
  ∃ c svg,
    cn L [CVString "flex h-7 w-7 items-center justify-center rounded bg-slate-100 dark:bg-slate-800";
          class_value (attrs p !! "className")] = Returns c
    ∧ type_of tree = Some (Tag "div")
    ∧ (∀ k, attr k tree = if decide (k = "className") then Some (PStr c) else None)
    ∧ children_of tree = [svg]
    ∧ type_of svg = Some (Tag "svg")
    ∧ attr "aria-label" svg
      = Some (default (PStr "Company logo") (attrs p !! "alt"))
    ∧ find_all (Tag "img") tree = [].
Proof.
  intros Hsrc H. unfold HeaderCompanyLogo in H. rewrite Hsrc in H.
  run_cn H c Hc. exists c. eexists.
  split; [reflexivity|]. split; [reflexivity|].
  split; [intros k; props_lookup|].
  split; [reflexivity|]. split; [reflexivity|].
  split; [|reflexivity]. props_lookup.
Qed.

Lemma HeaderCompanyLogo_placeholder_drops_props_witness :
  ∃ tree,
    HeaderCompanyLogo reference_imports
      {| attrs := {[ "src" := PStr ""; "id" := PStr "logo" ]};
         children := None |} = Returns tree
    ∧ type_of tree = Some (Tag "div")
    ∧ attr "id" tree = None.
Proof.
  eexists. split; [reflexivity|].
  edestruct (HeaderCompanyLogo_placeholder_drops_props reference_imports
               {| attrs := {[ "src" := PStr ""; "id" := PStr "logo" ]};
                  children := None |})
    as (c & svg & _ & Htype & Hattr & _); [reflexivity..|].
  split; [exact Htype|]. rewrite Hattr. reflexivity.
Defined.

(** ** The user menu *)

(** Whatever its props, [HeaderUserAvatar] returns one trigger button of
    type 'button' whose class list is computed by [cn], followed by a
    menu, aligned to the end, with the entries 'Profile', 'Settings' and
    'Sign out' in this order; the button holds either the profile image
    or the initials, never both. *)
Theorem HeaderUserAvatar_menu
    (L : Imports) (p : HeaderUserAvatarProps) (tree : Element) :
  HeaderUserAvatar L p = Returns tree ->
  ∃ c trigger content button,
    cn L [CVString "rounded-full outline-none ring-offset-2 focus-visible:ring-2 focus-visible:ring-slate-400";
          from_option CVString CVUndefined (className p)] = Returns c
    ∧ type_of tree = Some (Component "proqio-ui" "DropdownMenu")
    ∧ children_of tree = [trigger; content]
    ∧ attr "asChild" trigger = Some (PBool true)
    ∧ children_of trigger = [button]
    ∧ attr "type" button = Some (PStr "button")
    ∧ attr "className" button = Some (PStr c)
    ∧ attr "align" content = Some (PStr "end")
    ∧ inner_text <$> children_of content = ["Profile"; "Settings"; "Sign out"]
    ∧ (length (find_all (Tag "img") tree)
       + length (find_all (Tag "span") tree) = 1)%nat.
Proof.
  intros H. run_avatar H.
  destruct (string_truthy (src p));
    do 4 eexists; repeat split; reflexivity.
Qed.

Lemma HeaderUserAvatar_menu_witness :
  ∃ tree content,
    HeaderUserAvatar reference_imports
      {| src := None; name := Some "Ada Lovelace"; className := Some "ml-2" |}
    = Returns tree
    ∧ children_of tree !! 1%nat = Some content
    ∧ inner_text <$> children_of content = ["Profile"; "Settings"; "Sign out"].
Proof.
  edestruct (HeaderUserAvatar_menu reference_imports
               {| src := None; name := Some "Ada Lovelace";
                  className := Some "ml-2" |})
    as (c & trigger & content & button & _ & _ & Hchildren & _ & _ & _ & _ & _
        & Hitems & _); [reflexivity|].
  eexists _, content. split; [reflexivity|].
  split; [|exact Hitems]. rewrite Hchildren. reflexivity.
Defined.

(** ** The sidebar header and the menu callback *)

(** The sidebar is drawn expanded only when the state is exactly
    'expanded': then the header is aligned with 'justify-end' and the
    trigger shows the left chevron; for every other state the header gets
    'justify-center' and the trigger the right chevron.  Alignment and
    chevron always agree, in both revisions. *)
Theorem AppSidebar_chevron_follows_state
    (L : Imports) (ctx : RenderContext L) (tree tree' : Element) :
  AppSidebarHeroicons.AppSidebar L ctx = Returns tree ->
  AppSidebarLucide.AppSidebar L ctx = Returns tree' ->
  ∃ sidebar c header trigger icon header' trigger' icon',
    useSidebar L ctx = Returns sidebar
    ∧ cn L [CVString "flex";
            CVString (if decide (state L sidebar = "expanded")
                      then "justify-end" else "justify-center")] = Returns c
    ∧ find_all (Component "proqio-ui" "SidebarHeader") tree = [header]
    ∧ attr "className" header = Some (PStr c)
    ∧ children_of header = [trigger]
    ∧ children_of trigger = [icon]
    ∧ type_of icon
      = Some (if decide (state L sidebar = "expanded")
              then Component "@heroicons/react/24/outline" "ChevronDoubleLeftIcon"
              else Component "@heroicons/react/24/outline" "ChevronDoubleRightIcon")
    ∧ find_all (Component "proqio-ui" "SidebarHeader") tree' = [header']
    ∧ attr "className" header' = Some (PStr c)
    ∧ children_of header' = [trigger']
    ∧ children_of trigger' = [icon']
    ∧ type_of icon'
      = Some (if decide (state L sidebar = "expanded")
              then Component "lucide-react" "ChevronsLeft"
              else Component "lucide-react" "ChevronsRight").
Proof.
  intros H H'.
  unfold AppSidebarHeroicons.AppSidebar in H.
  unfold AppSidebarLucide.AppSidebar in H'.
  destruct (useSidebar L ctx) as [sidebar|e]; [|discriminate H].
  simpl in H, H'. exists sidebar.
  destruct (decide (state L sidebar = "expanded")) as [Hstate | Hstate].
  - rewrite Hstate in H, H'. cbn [String.eqb Ascii.eqb Bool.eqb] in H, H'.
    destruct (cn L _) as [c|e] eqn:Hc; [|discriminate H].
    simpl in H, H'. injection H as <-. injection H' as <-.
    exists c. do 6 eexists. repeat split; reflexivity.
  - apply String.eqb_neq in Hstate. rewrite Hstate in H, H'.
    destruct (cn L _) as [c|e] eqn:Hc; [|discriminate H].
    simpl in H, H'. injection H as <-. injection H' as <-.
    exists c. do 6 eexists. repeat split; reflexivity.
Qed.

Lemma AppSidebar_chevron_follows_state_witness :
  ∃ tree trigger,
    AppSidebarLucide.AppSidebar reference_imports
      {| sidebar := Some "Expanded"; renders := 0 |} = Returns tree
    ∧ find_all (Component "proqio-ui" "SidebarTrigger") tree = [trigger]
    ∧ type_of <$> children_of trigger
      = [Some (Component "lucide-react" "ChevronsRight")].
Proof.
  edestruct (AppSidebar_chevron_follows_state reference_imports
               {| sidebar := Some "Expanded"; renders := 0 |})
    as (sidebar & c & header & trigger & icon & header' & trigger' & icon'
        & Hsidebar & _ & _ & _ & _ & _ & _ & Hheader' & _ & Htrigger'
        & Hicon' & Htype'); [reflexivity..|].
  injection Hsidebar as <-.
  eexists _, trigger'. split; [reflexivity|].
  vm_compute in Hheader'. injection Hheader' as <-.
  injection Htrigger' as <-. injection Hicon' as <-.
  split; reflexivity.
Defined.

(** The callback given to [navItems.map] builds, for any nav item, an
    entry keyed by the item's destination, whose button shows the item's
    label as tooltip and whose link holds the item's icon followed by the
    label.  Hence the keys of the entries of any list of items are the
    destinations of the items, and items with pairwise distinct
    destinations get pairwise distinct keys. *)
Theorem navEntry_keys_and_labels (items : list AppSidebarHeroicons.NavItem) :
  (∀ item,
     ∃ button link icon span,
       attr "key" (AppSidebarHeroicons.navEntry item)
       = Some (PStr (AppSidebarHeroicons.to item))
       ∧ children_of (AppSidebarHeroicons.navEntry item) = [button]
       ∧ attr "tooltip" button = Some (PStr (AppSidebarHeroicons.label item))
       ∧ attr "asChild" button = Some (PBool true)
       ∧ children_of button = [link]
       ∧ children_of link = [icon; span]
       ∧ type_of icon = Some (AppSidebarHeroicons.Icon item)
       ∧ attr "className" icon = Some (PStr "size-4")
       ∧ inner_text span = AppSidebarHeroicons.label item)
  ∧ attr "key" <$> (AppSidebarHeroicons.navEntry <$> items)
    = (λ item, Some (PStr (AppSidebarHeroicons.to item))) <$> items
  ∧ (NoDup (AppSidebarHeroicons.to <$> items) ->
     NoDup (attr "key" <$> (AppSidebarHeroicons.navEntry <$> items))).
Proof.
  assert (∀ item, attr "key" (AppSidebarHeroicons.navEntry item)
                  = Some (PStr (AppSidebarHeroicons.to item))) as Hkey.
  { intros [label to Icon]. reflexivity. }
  assert (attr "key" <$> (AppSidebarHeroicons.navEntry <$> items)
          = (λ item, Some (PStr (AppSidebarHeroicons.to item))) <$> items)
    as Hkeys.
  { rewrite <- list_fmap_compose. apply list_fmap_ext. intros _ item _.
    apply Hkey. }
  split; [|split; [exact Hkeys|]].
  - intros [label to Icon]. do 4 eexists. repeat split; reflexivity.
  - intros Hnodup. rewrite Hkeys.
    rewrite (list_fmap_compose AppSidebarHeroicons.to (λ t, Some (PStr t))).
    apply NoDup_fmap_2; [|exact Hnodup]. intros x y [=]. assumption.
Qed.

Lemma navEntry_keys_and_labels_witness :
  NoDup (attr "key" <$> (AppSidebarHeroicons.navEntry
                           <$> AppSidebarHeroicons.navItems)).
Proof.
  apply (navEntry_keys_and_labels AppSidebarHeroicons.navItems).
  vm_compute. repeat constructor; set_solver.
Defined.

(** ** The counter's handler *)

(** The click handler is the same in every render: it passes an updater
    to [setCount] and does not read the rendered [count].  So the handler
    of any earlier render, run against the current state, does exactly
    what a click on the current render does, and two clicks that reach
    one render before the next one both count. *)
Theorem App_handler_never_stale (stale cell : option Z) :
  ∃ h,
    onClick_of (App stale) = Some h
    ∧ dispatch h cell = click cell
    ∧ dispatch h (dispatch h cell) = click (click cell).
Proof. eexists. repeat split; reflexivity. Qed.

(** ** Components under the library contract *)

Lemma cn_base_only (L : Imports) (conflicts : string -> string -> Prop)
    (base : string) (v : ClassValue) :
  LibraryContract L conflicts -> base ≠ "" -> truthy v = false ->
  cn L [CVString base; v] = twMerge L base.
Proof.
  intros Hcontract Hbase Hv. unfold cn.
  rewrite <- (clsx_drops_falsy L conflicts Hcontract).
  rewrite filter_cons_True by (simpl; by rewrite eqb_nonempty).
  rewrite filter_cons_False by (rewrite Hv; simpl; tauto).
  rewrite filter_nil.
  change [CVString base] with (CVString <$> [base]).
  rewrite (clsx_joins L conflicts Hcontract) by (repeat constructor; assumption).
  reflexivity.
Qed.

(** When clsx and tailwind-merge keep their documented contract, a header
    wrapper that is given no [className] (or an empty one) carries exactly
    the class list that [twMerge] returns for the component's base
    classes. *)
Theorem header_wrappers_without_className
    (L : Imports) (conflicts : string -> string -> Prop)
    (p : Props) (tree : Element) :
  LibraryContract L conflicts ->
  attrs p !! "className" = None ∨ attrs p !! "className" = Some (PStr "") ->
  (Header L p = Returns tree ->
     ∃ c, twMerge L "flex h-14 items-center justify-between border-b border-slate-200 bg-white px-6 dark:border-slate-800 dark:bg-slate-950"
          = Returns c
          ∧ attr "className" tree = Some (PStr c))
  ∧ (HeaderSection L p = Returns tree ->
     ∃ c, twMerge L "flex items-center gap-3" = Returns c
          ∧ attr "className" tree = Some (PStr c))
  ∧ (HeaderBrand L p = Returns tree ->
     ∃ c, twMerge L "text-base font-semibold text-slate-900 dark:text-white"
          = Returns c
          ∧ attr "className" tree = Some (PStr c))
  ∧ (HeaderDivider L p = Returns tree ->
     ∃ c, twMerge L "h-5 w-px bg-slate-200 dark:bg-slate-700" = Returns c
          ∧ attr "className" tree = Some (PStr c)).
Proof.
  intros Hcontract Hclass.
  assert (truthy (class_value (attrs p !! "className")) = false) as Hfalsy
    by (destruct Hclass as [-> | ->]; reflexivity).
  repeat split; intros H.
  - unfold Header in H.
    rewrite (cn_base_only L conflicts) in H by (done || discriminate).
    destruct (twMerge L _) as [c|e]; [|discriminate H].
    simpl in H. injection H as <-. exists c. split; [reflexivity|]. props_lookup.
  - unfold HeaderSection in H.
    rewrite (cn_base_only L conflicts) in H by (done || discriminate).
    destruct (twMerge L _) as [c|e]; [|discriminate H].
    simpl in H. injection H as <-. exists c. split; [reflexivity|]. props_lookup.
  - unfold HeaderBrand in H.
    rewrite (cn_base_only L conflicts) in H by (done || discriminate).
    destruct (twMerge L _) as [c|e]; [|discriminate H].
    simpl in H. injection H as <-. exists c. split; [reflexivity|]. props_lookup.
  - unfold HeaderDivider in H.
    rewrite (cn_base_only L conflicts) in H by (done || discriminate).
    destruct (twMerge L _) as [c|e]; [|discriminate H].
    simpl in H. injection H as <-. exists c. split; [reflexivity|]. props_lookup.
Qed.

Lemma header_wrappers_without_className_witness :
  ∃ tree,
    HeaderSection reference_imports
      {| attrs := {[ "className" := PStr "" ]}; children := None |}
    = Returns tree
    ∧ attr "className" tree = Some (PStr "flex items-center gap-3").
Proof.
  eexists. split; [reflexivity|].
  edestruct (header_wrappers_without_className reference_imports
               (λ a b, conflicts_model a b = true)
               {| attrs := {[ "className" := PStr "" ]}; children := None |})
    as (_ & HSection & _);
    [exact reference_contract | right; reflexivity |].
  destruct (HSection eq_refl) as (c & Hc & Hattr).
  vm_compute in Hc. injection Hc as <-. exact Hattr.
Defined.

(** ** Rendering the page shell *)

Section Expand.
Context (L : Imports) (ctx : RenderContext L) (revision : SidebarRevision).

Lemma expand_local (n : nat) (e : Element) (call : ComponentCall) :
  resolve_import revision e = Some call ->
  expand L ctx revision (S n) e
  = render L ctx call ≫= expand L ctx revision n.
Proof. intros H. simpl. rewrite H. reflexivity. Qed.

Lemma expand_foreign (n : nat) (e : Element) :
  resolve_import revision e = None ->
  expand L ctx revision (S n) e
  = match e with
    | Elem t p cs =>
        mapM (expand L ctx revision n) cs ≫= λ cs', mret (Elem t p cs')
    | other => mret other
    end.
Proof. intros H. simpl. rewrite H. reflexivity. Qed.

Lemma mapM_Returns_id (f : Element -> Outcome Element) (cs : list Element) :
  Forall (λ c, f c = Returns c) cs -> mapM f cs = Returns cs.
Proof.
  induction 1 as [|c cs Hc _ IH]; [reflexivity|].
  simpl. rewrite Hc. simpl. rewrite IH. reflexivity.
Qed.

Lemma local_references_nil_inv (e : Element) :
  local_references revision e = [] ->
  resolve_import revision e = None
  ∧ Forall (λ c, local_references revision c = []) (children_of e).
Proof.
  unfold local_references. intros H.
  assert (filter (λ d, is_Some (resolve_import revision d))
            (e :: flat_map descendants (children_of e)) = []) as H'
    by (destruct e; exact H).
  clear H. rewrite filter_cons in H'.
  destruct (decide (is_Some (resolve_import revision e))) as [|Hnone];
    [discriminate H'|].
  split.
  - destruct (resolve_import revision e); [|reflexivity].
    exfalso. apply Hnone. by eexists.
  - induction (children_of e) as [|c cs IH]; [constructor|].
    simpl in H'. rewrite filter_app in H'.
    apply app_eq_nil in H' as [Hc Hcs]. constructor; [exact Hc | by apply IH].
Qed.

(** A tree that names no component of the repository is left as it is,
    whatever the fuel. *)
Lemma expand_pure (n : nat) (e : Element) :
  local_references revision e = [] ->
  expand L ctx revision n e = Returns e.
Proof.
  revert e. induction n as [|n IH]; intros e Hpure; [reflexivity|].
  apply local_references_nil_inv in Hpure as [Hnone Hchildren].
  rewrite expand_foreign by exact Hnone.
  destruct e as [s|z|t p cs]; try reflexivity.
  rewrite mapM_Returns_id; [reflexivity|].
  simpl in Hchildren. eapply Forall_impl; [exact Hchildren|].
  intros c Hc. by apply IH.
Qed.

End Expand.

Lemma outcome_returns_with {A} (o : Outcome A) (P : A -> Prop) :
  match o with
  | Returns a => P a
  | Throws _ => False
  end ->
  ∃ a, o = Returns a ∧ P a.
Proof. destruct o as [a|e]; [eauto | intros []]. Qed.

(** One step of a render: expands the next element, or replaces the next
    call of an imported function by the value it is known to return. *)
Ltac expand_step L ctx Hlibs Hsidebar Hstate :=
  cbn [mapM mbind mret Outcome_bind Outcome_ret render child_nodes children
       default from_option id];
  first
    [ rewrite expand_pure by (vm_compute; reflexivity)
    | rewrite expand_foreign by (vm_compute; reflexivity); cbn [jsx AppLayout]
    | erewrite expand_local by (vm_compute; reflexivity);
      cbn [render];
      unfold Header, HeaderSection, HeaderBrand, HeaderDivider,
        HeaderCompanyLogo, HeaderUserAvatar, AppSidebarHeroicons.AppSidebar,
        AppSidebarLucide.AppSidebar
    | progress rewrite Hsidebar
    | progress rewrite Hstate
    | match goal with
      | |- context [cn L ?vs] =>
          let c := fresh "c" in
          let Hc := fresh "Hc" in
          destruct (cn_Returns L ctx vs Hlibs) as [c Hc]; rewrite Hc; clear Hc
      end ].

(** When the imported functions return, rendering the root route's
    component to depth 8 or more resolves every component of the
    repository, with either revision of the sidebar, and the page shell
    that results shows the brand 'Infinitus', the initials of 'User' and
    the nav label 'Home'; its one button is labelled 'User menu for
    User', it holds no image, one link (Home, to '/') and one [Outlet]
    for the routed page. *)
Theorem page_shell_renders
    (L : Imports) (ctx : RenderContext L) (revision : SidebarRevision)
    (k : nat) :
  libraries_return L ctx ->
  ∃ page,
    expand L ctx revision (8 + k) RootLayout = Returns page
    ∧ local_references revision page = []
    ∧ type_of page = Some (Component "react" "Suspense")
    ∧ inner_text <$> find_all (Tag "span") page
      = ["Infinitus"; getInitials "User"; "Home"]
    ∧ attr "aria-label" <$> find_all (Tag "button") page
      = [Some (PStr "User menu for User")]
    ∧ find_all (Tag "img") page = []
    ∧ links page = [(Some (PStr "/"), "Home")]
    ∧ length (find_all (Component "@tanstack/react-router" "Outlet") page)
      = 1%nat.
Proof.
  intros Hlibs. pose proof Hlibs as (_ & _ & sidebar & Hsidebar).
  destruct (String.eqb (state L sidebar) "expanded") eqn:Hstate;
    destruct revision.
  all: apply outcome_returns_with; cbn [Nat.add]; unfold RootLayout;
    repeat expand_step L ctx Hlibs Hsidebar Hstate;
    cbn [mbind mret Outcome_bind Outcome_ret];
    repeat split; vm_compute; reflexivity.
Qed.

Lemma page_shell_renders_witness :
  ∃ page,
    expand reference_imports {| sidebar := Some "expanded"; renders := 0 |}
           lucide_revision 8 RootLayout = Returns page
    ∧ links page = [(Some (PStr "/"), "Home")].
Proof.
  edestruct (page_shell_renders reference_imports
               {| sidebar := Some "expanded"; renders := 0 |}
               lucide_revision 0)
    as (page & Hpage & _ & _ & _ & _ & _ & Hlinks & _).
  { split; [|split]; simpl; eauto. }
  exists page. split; [exact Hpage | exact Hlinks].
Defined.


